(** * cfapi_shim: the Cloud Files bridge of FruitSalade

    A shallow embedding of [src/phase2/windows/cfapi_shim.cpp] (declared in
    [src/fruitsalade/windows/cfapi_shim.h]).  The shim is a thin layer over
    the Windows Cloud Files API: every public function builds a few structs
    and issues one or two platform calls.  The platform itself is not part of
    the repository, so a shim function is embedded as a finite program over
    platform calls ([Prog]); a platform is a handler that answers each call
    and threads its own state.  What a function submits to the platform is
    then read off the calls it issues, and what it returns is read off the
    result of running it against a handler. *)

From Stdlib Require Import ZArith List Bool Lia.
From Stdlib Require Import Strings.Byte.
Import ListNotations.
Local Open Scope Z_scope.

Set Implicit Arguments.

(** ** Machine integers

    The file is compiled for Windows only ([#ifdef _WIN32]), so [long],
    [int], [HRESULT] and [NTSTATUS] are 32-bit signed, [DWORD] is 32-bit
    unsigned, and [long long], [LONGLONG] are 64-bit signed. *)

Module Int.

Definition wrap_u (w : Z) (x : Z) : Z := x mod 2 ^ w.

Definition wrap_s (w : Z) (x : Z) : Z :=
  let u := x mod 2 ^ w in
  if u <? 2 ^ (w - 1) then u else u - 2 ^ w.

Definition u32 : Z -> Z := wrap_u 32.
Definition u64 : Z -> Z := wrap_u 64.
Definition s32 : Z -> Z := wrap_s 32.
Definition s64 : Z -> Z := wrap_s 64.

Definition in_s64 (x : Z) : Prop := - 2 ^ 63 <= x < 2 ^ 63.

End Int.

(** ** The platform's declarations used by the shim

    Constants and macros of the Windows SDK headers the source includes
    ([winerror.h], [winnt.h], [objbase.h], [cfapi.h]), with the values those
    headers give them.  Enumerations the shim only assigns are inductive
    types; flag words the shim combines with [|] are integers. *)

Module Win32.

Definition HRESULT := Z.
Definition NTSTATUS := Z.
Definition DWORD := Z.
Definition LONGLONG := Z.
Definition HANDLE := Z.
Definition WCHAR := Z.
Definition wstring := list WCHAR.

Definition S_OK : HRESULT := 0.
Definition S_FALSE : HRESULT := 1.
Definition RPC_E_CHANGED_MODE : HRESULT := Int.s32 0x80010106.
Definition STATUS_SUCCESS : NTSTATUS := 0.
Definition INVALID_HANDLE_VALUE : HANDLE := -1.

(* winerror.h: #define FAILED(hr) (((HRESULT)(hr)) < 0) *)
Definition FAILED (hr : HRESULT) : bool := hr <? 0.
(* winerror.h: #define SUCCEEDED(hr) (((HRESULT)(hr)) >= 0) *)
Definition SUCCEEDED (hr : HRESULT) : bool := 0 <=? hr.

Definition FACILITY_WIN32 : Z := 7.

(* winerror.h:
   HRESULT_FROM_WIN32(unsigned long x) {
     return (HRESULT)(x) <= 0 ? (HRESULT)(x)
          : (HRESULT)(((x) & 0x0000FFFF) | (FACILITY_WIN32 << 16) | 0x80000000); } *)
Definition HRESULT_FROM_WIN32 (x : DWORD) : HRESULT :=
  if Int.s32 x <=? 0 then Int.s32 x
  else Int.s32 (Z.lor (Z.lor (Z.land x 0x0000FFFF) (Z.shiftl FACILITY_WIN32 16))
                      0x80000000).

Definition COINIT_MULTITHREADED : DWORD := 0.

Definition FILE_ATTRIBUTE_DIRECTORY : DWORD := 0x10.
Definition FILE_ATTRIBUTE_NORMAL : DWORD := 0x80.

Definition WRITE_DAC : DWORD := 0x00040000.
Definition FILE_SHARE_READ : DWORD := 0x00000001.
Definition OPEN_EXISTING : DWORD := 3.
Definition FILE_FLAG_BACKUP_SEMANTICS : DWORD := 0x02000000.

Definition CF_REGISTER_FLAG_UPDATE : DWORD := 0x1.

Definition CF_CONNECT_FLAG_REQUIRE_PROCESS_INFO : DWORD := 0x2.
Definition CF_CONNECT_FLAG_REQUIRE_FULL_FILE_PATH : DWORD := 0x4.

Definition CF_CREATE_FLAG_NONE : DWORD := 0x0.

Definition CF_PLACEHOLDER_CREATE_FLAG_NONE : DWORD := 0x0.
Definition CF_PLACEHOLDER_CREATE_FLAG_DISABLE_ON_DEMAND_POPULATION : DWORD := 0x1.
Definition CF_PLACEHOLDER_CREATE_FLAG_MARK_IN_SYNC : DWORD := 0x2.

Definition CF_UPDATE_FLAG_MARK_IN_SYNC : DWORD := 0x2.
Definition CF_DEHYDRATE_FLAG_NONE : DWORD := 0x0.

Inductive CF_HYDRATION_POLICY_PRIMARY :=
| CF_HYDRATION_POLICY_PARTIAL
| CF_HYDRATION_POLICY_PROGRESSIVE
| CF_HYDRATION_POLICY_FULL
| CF_HYDRATION_POLICY_ALWAYS_FULL.

Inductive CF_POPULATION_POLICY_PRIMARY :=
| CF_POPULATION_POLICY_PARTIAL
| CF_POPULATION_POLICY_FULL
| CF_POPULATION_POLICY_ALWAYS_FULL.

Inductive CF_HARDLINK_POLICY :=
| CF_HARDLINK_POLICY_NONE
| CF_HARDLINK_POLICY_ALLOWED.

Definition CF_INSYNC_POLICY := DWORD.
Definition CF_INSYNC_POLICY_NONE : CF_INSYNC_POLICY := 0x0.
Definition CF_INSYNC_POLICY_TRACK_ALL : CF_INSYNC_POLICY := 0x00ffffff.

Inductive CF_OPERATION_TYPE :=
| CF_OPERATION_TYPE_TRANSFER_DATA
| CF_OPERATION_TYPE_RETRIEVE_DATA
| CF_OPERATION_TYPE_ACK_DATA
| CF_OPERATION_TYPE_RESTART_HYDRATION
| CF_OPERATION_TYPE_TRANSFER_PLACEHOLDERS
| CF_OPERATION_TYPE_ACK_DEHYDRATE
| CF_OPERATION_TYPE_ACK_DELETE
| CF_OPERATION_TYPE_ACK_RENAME.

Inductive CF_CALLBACK_TYPE :=
| CF_CALLBACK_TYPE_FETCH_DATA
| CF_CALLBACK_TYPE_CANCEL_FETCH_DATA.

Definition CF_CONNECTION_KEY := Z.
Definition CF_TRANSFER_KEY := Z.

(* guiddef.h: Data1 (32 bits), Data2, Data3 (16 bits), Data4 (8 bytes). *)
Record GUID := {
  Data1 : Z;
  Data2 : Z;
  Data3 : Z;
  Data4 : list Z
}.

Record FILETIME := {
  dwLowDateTime : DWORD;
  dwHighDateTime : DWORD
}.

Record CF_SYNC_REGISTRATION := {
  ProviderName : wstring;
  ProviderVersion : wstring;
  ProviderId : GUID
}.

Record CF_SYNC_POLICIES := {
  Hydration_Primary : CF_HYDRATION_POLICY_PRIMARY;
  Hydration_Modifier : DWORD;
  Population_Primary : CF_POPULATION_POLICY_PRIMARY;
  Population_Modifier : DWORD;
  InSync : CF_INSYNC_POLICY;
  HardLink : CF_HARDLINK_POLICY
}.

Record CF_FS_BASIC_INFO := {
  CreationTime : LONGLONG;
  LastAccessTime : LONGLONG;
  LastWriteTime : LONGLONG;
  ChangeTime : LONGLONG;
  FileAttributes : DWORD
}.

Record CF_FS_METADATA := {
  BasicInfo : CF_FS_BASIC_INFO;
  FileSize : LONGLONG
}.

(* A pointer to bytes together with a byte count: the bytes of
   [FileIdentity] are the memory the pointer refers to, of which the
   platform reads the first [FileIdentityLength]. *)
Record CF_PLACEHOLDER_CREATE_INFO := {
  RelativeFileName : wstring;
  FsMetadata : CF_FS_METADATA;
  FileIdentity : list byte;
  FileIdentityLength : DWORD;
  Flags : DWORD;
  Result : HRESULT
}.

Record CF_OPERATION_INFO := {
  Type_ : CF_OPERATION_TYPE;
  ConnectionKey : CF_CONNECTION_KEY;
  TransferKey : CF_TRANSFER_KEY
}.

(* The TransferData member of CF_OPERATION_PARAMETERS.  [Buffer] is a
   pointer: [None] is the null pointer. *)
Record CF_OPERATION_PARAMETERS := {
  CompletionStatus : NTSTATUS;
  Buffer : option (list byte);
  Offset : LONGLONG;
  Length : LONGLONG
}.

(* CF_CALLBACK_INFO and the FetchData member of CF_CALLBACK_PARAMETERS, as
   far as the callback reads them. *)
Record CF_CALLBACK_INFO := {
  cb_FileIdentity : list byte;
  cb_FileIdentityLength : DWORD;
  cb_TransferKey : CF_TRANSFER_KEY
}.

Record CF_CALLBACK_PARAMETERS := {
  RequiredFileOffset : LONGLONG;
  RequiredLength : LONGLONG
}.

End Win32.
Import Win32.

(** ** Programs over platform calls *)

(* The two callbacks of the source, as the callback table names them. *)
Inductive callback_fn :=
| FetchDataCallback_fn
| CancelFetchDataCallback_fn.

(* One constructor per platform entry point the shim calls, with the
   arguments the shim chooses (null and constant arguments that no call
   site varies are left out: [pvReserved] of CoInitializeEx, the callback
   context of CfConnectSyncRoot, the security attributes and template of
   CreateFileW, the entry count 1 and the processed-count pointer of
   CfCreatePlaceholders, the dehydrate ranges and USN of
   CfUpdatePlaceholder, the overlapped pointers).  [goHydrationCallback] is
   the engine's entry point declared in the header. *)
Inductive os_call : Type :=
| CoInitializeEx (dwCoInit : DWORD)
| CfRegisterSyncRoot (SyncRootPath : wstring) (Registration : CF_SYNC_REGISTRATION)
    (Policies : CF_SYNC_POLICIES) (RegisterFlags : DWORD)
| CfConnectSyncRoot (SyncRootPath : wstring)
    (CallbackTable : list (CF_CALLBACK_TYPE * callback_fn)) (ConnectFlags : DWORD)
| CfDisconnectSyncRoot (key : CF_CONNECTION_KEY)
| CfUnregisterSyncRoot (SyncRootPath : wstring)
| CfCreatePlaceholders (BaseDirectoryPath : wstring)
    (PlaceholderArray : CF_PLACEHOLDER_CREATE_INFO) (CreateFlags : DWORD)
| CreateFileW (lpFileName : wstring) (dwDesiredAccess dwShareMode
    dwCreationDisposition dwFlagsAndAttributes : DWORD)
| GetLastError
| CloseHandle (hObject : HANDLE)
| CfUpdatePlaceholder (FileHandle : HANDLE) (FsMetadata : CF_FS_METADATA)
    (FileIdentity : list byte) (FileIdentityLength : DWORD) (UpdateFlags : DWORD)
| CfDehydratePlaceholder (FileHandle : HANDLE) (StartingOffset Length : LONGLONG)
    (DehydrateFlags : DWORD)
| CfExecute (OpInfo : CF_OPERATION_INFO) (OpParams : CF_OPERATION_PARAMETERS)
| goHydrationCallback (fileIdentity : list byte) (fileIdentityLen : Z)
    (offset length : Z) (transferKey : CF_TRANSFER_KEY).

(* What each call hands back: its return value, and for the two calls with
   an out-parameter the value left there (the connection key in [*out_key],
   the per-entry [Result] of the placeholder array). *)
Definition os_ret (c : os_call) : Type :=
  match c with
  | CfConnectSyncRoot _ _ _ => (HRESULT * CF_CONNECTION_KEY)%type
  | CfCreatePlaceholders _ _ _ => (HRESULT * HRESULT)%type
  | goHydrationCallback _ _ _ _ _ => unit
  | _ => Z
  end.

Inductive Prog (R : Type) : Type :=
| Ret (r : R)
| Call (c : os_call) (k : os_ret c -> Prog R).

Arguments Ret {R} r.
Arguments Call {R} c k.

Fixpoint bind {A B : Type} (p : Prog A) (f : A -> Prog B) : Prog B :=
  match p with
  | Ret a => f a
  | Call c k => Call c (fun x => bind (k x) f)
  end.

Definition call (c : os_call) : Prog (os_ret c) := Call c (fun x => Ret x).

Declare Scope prog_scope.
Delimit Scope prog_scope with prog.
Notation "x <- p ;; q" := (bind p (fun x => q))
  (at level 61, p at next level, right associativity) : prog_scope.
Notation "p ;;; q" := (bind p (fun _ => q))
  (at level 61, right associativity) : prog_scope.
Local Open Scope prog_scope.

(* A platform answers every call from its current state. *)
Definition platform (W : Type) : Type := forall c : os_call, W -> os_ret c * W.

(* Running a program against a platform: the value returned to the caller
   and the state the platform is left in. *)
Fixpoint run {W R : Type} (h : platform W) (p : Prog R) (w : W) : R * W :=
  match p with
  | Ret r => (r, w)
  | Call c k => let (x, w') := h c w in run h (k x) w'
  end.

(* The calls a program issues against a platform, in order. *)
Fixpoint calls {W R : Type} (h : platform W) (p : Prog R) (w : W) : list os_call :=
  match p with
  | Ret _ => []
  | Call c k => let (x, w') := h c w in c :: calls h (k x) w'
  end.

(** ** The shim *)

(* The bytes a [const char *] argument points to.  The caller's terminating
   NUL is implied after the last byte of the list, so a scan for NUL always
   ends. *)
Definition c_string := list byte.

Fixpoint strlen (s : c_string) : nat :=
  match s with
  | [] => O
  | b :: s' => if Byte.eqb b x00 then O else S (strlen s')
  end.

(* static_cast<long>(hr): HRESULT is a typedef of long. *)
Definition static_cast_long (hr : HRESULT) : Z := hr.

(* static_cast<NTSTATUS>(hr): long and NTSTATUS are both 32-bit signed. *)
Definition static_cast_NTSTATUS (hr : Z) : NTSTATUS := hr.

(* *reinterpret_cast<LONGLONG *>(&ft): the two little-endian DWORDs read
   as one signed 64-bit integer. *)
Definition reinterpret_LONGLONG (ft : FILETIME) : LONGLONG :=
  Int.s64 (Z.lor (dwLowDateTime ft) (Z.shiftl (dwHighDateTime ft) 32)).

Definition UnixToFileTime (unixTime : Z) : FILETIME :=
  let QuadPart := Int.u64 ((Int.u64 unixTime + 11644473600) * 10000000) in
  {| dwLowDateTime := Z.land QuadPart 0xFFFFFFFF;
     dwHighDateTime := Z.shiftr QuadPart 32 |}.

Definition s_providerId : GUID :=
  {| Data1 := 0xa1b2c3d4; Data2 := 0xe5f6; Data3 := 0x7890;
     Data4 := [0xab; 0xcd; 0xef; 0x12; 0x34; 0x56; 0x78; 0x90] |}.

Definition s_callbackTable : list (CF_CALLBACK_TYPE * callback_fn) :=
  [ (CF_CALLBACK_TYPE_FETCH_DATA, FetchDataCallback_fn);
    (CF_CALLBACK_TYPE_CANCEL_FETCH_DATA, CancelFetchDataCallback_fn) ].

Definition FetchDataCallback (callbackInfo : CF_CALLBACK_INFO)
    (callbackParameters : CF_CALLBACK_PARAMETERS) : Prog unit :=
  let fileIdentity := cb_FileIdentity callbackInfo in
  let fileIdentityLen := Int.s32 (cb_FileIdentityLength callbackInfo) in
  let offset := RequiredFileOffset callbackParameters in
  let length := RequiredLength callbackParameters in
  let transferKey := cb_TransferKey callbackInfo in
  call (goHydrationCallback fileIdentity fileIdentityLen offset length transferKey).

Definition CancelFetchDataCallback (callbackInfo : CF_CALLBACK_INFO)
    (callbackParameters : CF_CALLBACK_PARAMETERS) : Prog unit :=
  Ret tt.

Definition invoke_callback (f : callback_fn) :
    CF_CALLBACK_INFO -> CF_CALLBACK_PARAMETERS -> Prog unit :=
  match f with
  | FetchDataCallback_fn => FetchDataCallback
  | CancelFetchDataCallback_fn => CancelFetchDataCallback
  end.

Definition cfapi_init : Prog Z :=
  hr <- call (CoInitializeEx COINIT_MULTITHREADED) ;;
  if FAILED hr && negb (hr =? RPC_E_CHANGED_MODE)
  then Ret (static_cast_long hr)
  else Ret 0.

Definition cfapi_disconnect_sync_root (key : CF_CONNECTION_KEY) : Prog unit :=
  call (CfDisconnectSyncRoot key) ;;; Ret tt.

Definition cfapi_transfer_data (conn_key : CF_CONNECTION_KEY)
    (transfer_key : CF_TRANSFER_KEY) (data : option (list byte))
    (offset length : Z) : Prog Z :=
  let opInfo :=
    {| Type_ := CF_OPERATION_TYPE_TRANSFER_DATA;
       ConnectionKey := conn_key;
       TransferKey := transfer_key |} in
  let opParams :=
    {| CompletionStatus := STATUS_SUCCESS;
       Buffer := data;
       Offset := offset;
       Length := length |} in
  hr <- call (CfExecute opInfo opParams) ;;
  Ret (static_cast_long hr).

Definition cfapi_transfer_error (conn_key : CF_CONNECTION_KEY)
    (transfer_key : CF_TRANSFER_KEY) (offset : Z) (hr : Z) : Prog unit :=
  let opInfo :=
    {| Type_ := CF_OPERATION_TYPE_TRANSFER_DATA;
       ConnectionKey := conn_key;
       TransferKey := transfer_key |} in
  let opParams :=
    {| CompletionStatus := static_cast_NTSTATUS hr;
       Buffer := None;
       Offset := offset;
       Length := 0 |} in
  call (CfExecute opInfo opParams) ;;; Ret tt.

Section Shim.

(* MultiByteToWideChar(CP_UTF8, 0, utf8, -1, ...) of the platform: the
   UTF-16 code units of a NUL-terminated UTF-8 string, terminator included
   (the empty list when the conversion fails).  The first call of the source
   asks for the length of this result, the second call fills the buffer
   with it. *)
Variable MultiByteToWideChar : c_string -> list WCHAR.

(* A [const char *] that may be null. *)
Definition Utf8ToWide (utf8 : option c_string) : wstring :=
  match utf8 with
  | None => []
  | Some s =>
    match strlen s with
    | O => []
    | S _ =>
      let len := Z.of_nat (List.length (MultiByteToWideChar s)) in
      if len <=? 0 then []
      else firstn (Z.to_nat (len - 1)) (MultiByteToWideChar s)
    end
  end.

Definition cfapi_register_sync_root (sync_root_path display_name version : option c_string)
    : Prog Z :=
  let wRoot := Utf8ToWide sync_root_path in
  let wName := Utf8ToWide display_name in
  let wVer := Utf8ToWide version in
  let reg :=
    {| ProviderName := wName;
       ProviderVersion := wVer;
       ProviderId := s_providerId |} in
  let policies :=
    {| Hydration_Primary := CF_HYDRATION_POLICY_FULL;
       Hydration_Modifier := 0;
       Population_Primary := CF_POPULATION_POLICY_FULL;
       Population_Modifier := 0;
       InSync := CF_INSYNC_POLICY_TRACK_ALL;
       HardLink := CF_HARDLINK_POLICY_NONE |} in
  hr <- call (CfRegisterSyncRoot wRoot reg policies CF_REGISTER_FLAG_UPDATE) ;;
  Ret (static_cast_long hr).

(* The connection key the platform leaves in [*out_key] is returned next to
   the status. *)
Definition cfapi_connect_sync_root (sync_root_path : option c_string)
    : Prog (Z * CF_CONNECTION_KEY) :=
  let wRoot := Utf8ToWide sync_root_path in
  r <- call (CfConnectSyncRoot wRoot s_callbackTable
               (Z.lor CF_CONNECT_FLAG_REQUIRE_PROCESS_INFO
                      CF_CONNECT_FLAG_REQUIRE_FULL_FILE_PATH)) ;;
  Ret (static_cast_long (fst r), snd r).

Definition cfapi_unregister_sync_root (sync_root_path : option c_string) : Prog Z :=
  let wRoot := Utf8ToWide sync_root_path in
  hr <- call (CfUnregisterSyncRoot wRoot) ;;
  Ret (static_cast_long hr).

Definition cfapi_create_placeholder (parent_path name : option c_string)
    (file_identity : c_string) (file_size mtime_unix : Z) (is_directory : Z)
    : Prog Z :=
  let wParent := Utf8ToWide parent_path in
  let wName := Utf8ToWide name in
  let ftMtime := UnixToFileTime mtime_unix in
  let attrs_flags :=
    if negb (is_directory =? 0)
    then (FILE_ATTRIBUTE_DIRECTORY,
          Z.lor CF_PLACEHOLDER_CREATE_FLAG_MARK_IN_SYNC
                CF_PLACEHOLDER_CREATE_FLAG_DISABLE_ON_DEMAND_POPULATION)
    else (FILE_ATTRIBUTE_NORMAL, CF_PLACEHOLDER_CREATE_FLAG_MARK_IN_SYNC) in
  let phInfo :=
    {| RelativeFileName := wName;
       FsMetadata :=
         {| BasicInfo :=
              {| CreationTime := reinterpret_LONGLONG ftMtime;
                 LastAccessTime := reinterpret_LONGLONG ftMtime;
                 LastWriteTime := reinterpret_LONGLONG ftMtime;
                 ChangeTime := reinterpret_LONGLONG ftMtime;
                 FileAttributes := fst attrs_flags |};
            FileSize := file_size |};
       FileIdentity := file_identity;
       FileIdentityLength := Int.u32 (Z.of_nat (strlen file_identity));
       Flags := snd attrs_flags;
       Result := S_OK |} in
  r <- call (CfCreatePlaceholders wParent phInfo CF_CREATE_FLAG_NONE) ;;
  let hr := fst r in
  let phInfo_Result := snd r in
  let hr := if SUCCEEDED hr && FAILED phInfo_Result then phInfo_Result else hr in
  Ret (static_cast_long hr).

Definition cfapi_update_placeholder (file_path : option c_string)
    (file_identity : c_string) (file_size mtime_unix : Z) : Prog Z :=
  let wPath := Utf8ToWide file_path in
  let ftMtime := UnixToFileTime mtime_unix in
  hFile <- call (CreateFileW wPath WRITE_DAC FILE_SHARE_READ OPEN_EXISTING
                   FILE_FLAG_BACKUP_SEMANTICS) ;;
  if hFile =? INVALID_HANDLE_VALUE then
    e <- call GetLastError ;;
    Ret (static_cast_long (HRESULT_FROM_WIN32 e))
  else
    let fsMetadata :=
      {| BasicInfo :=
           {| CreationTime := 0;
              LastAccessTime := 0;
              LastWriteTime := reinterpret_LONGLONG ftMtime;
              ChangeTime := reinterpret_LONGLONG ftMtime;
              FileAttributes := 0 |};
         FileSize := file_size |} in
    hr <- call (CfUpdatePlaceholder hFile fsMetadata file_identity
                  (Int.u32 (Z.of_nat (strlen file_identity)))
                  CF_UPDATE_FLAG_MARK_IN_SYNC) ;;
    call (CloseHandle hFile) ;;;
    Ret (static_cast_long hr).

Definition cfapi_dehydrate_placeholder (file_path : option c_string) : Prog Z :=
  let wPath := Utf8ToWide file_path in
  hFile <- call (CreateFileW wPath WRITE_DAC FILE_SHARE_READ OPEN_EXISTING
                   FILE_FLAG_BACKUP_SEMANTICS) ;;
  if hFile =? INVALID_HANDLE_VALUE then
    e <- call GetLastError ;;
    Ret (static_cast_long (HRESULT_FROM_WIN32 e))
  else
    hr <- call (CfDehydratePlaceholder hFile 0 (-1) CF_DEHYDRATE_FLAG_NONE) ;;
    call (CloseHandle hFile) ;;;
    Ret (static_cast_long hr).

End Shim.

(** ** A reference platform

    A small executable platform on which the shim can be run: one COM
    apartment, a table of registered roots, the live connection keys, a
    table of placeholders by full path, the thread's last error, and the
    requests handed to the engine.  It is one platform among those the
    theorems below range over. *)

Module RefOS.

Definition wstring_eqb (a b : wstring) : bool :=
  if list_eq_dec Z.eq_dec a b then true else false.

Fixpoint lookup {V : Type} (k : wstring) (l : list (wstring * V)) : option V :=
  match l with
  | [] => None
  | (k', v) :: l' => if wstring_eqb k k' then Some v else lookup k l'
  end.

Definition remove_key {V : Type} (k : wstring) (l : list (wstring * V))
    : list (wstring * V) :=
  filter (fun kv => negb (wstring_eqb k (fst kv))) l.

Definition upsert {V : Type} (k : wstring) (v : V) (l : list (wstring * V))
    : list (wstring * V) :=
  (k, v) :: remove_key k l.

Fixpoint index_of {V : Type} (k : wstring) (l : list (wstring * V)) : option nat :=
  match l with
  | [] => None
  | (k', _) :: l' =>
    if wstring_eqb k k' then Some O
    else match index_of k l' with Some i => Some (S i) | None => None end
  end.

Fixpoint replace_nth {A : Type} (n : nat) (f : A -> A) (l : list A) : list A :=
  match l, n with
  | [], _ => []
  | x :: l', O => f x :: l'
  | x :: l', S n' => x :: replace_nth n' f l'
  end.

Record hydration_request := {
  req_identity : list byte;
  req_offset : Z;
  req_length : Z;
  req_transfer_key : CF_TRANSFER_KEY
}.

Record world := {
  com_mode : option DWORD;
  roots : list (wstring * (CF_SYNC_REGISTRATION * CF_SYNC_POLICIES));
  live : list CF_CONNECTION_KEY;
  next_key : CF_CONNECTION_KEY;
  files : list (wstring * (list byte * CF_FS_METADATA));
  last_error : DWORD;
  requests : list hydration_request
}.

Definition boot : world :=
  {| com_mode := None; roots := []; live := []; next_key := 1;
     files := []; last_error := 0; requests := [] |}.

Definition set_com_mode (m : option DWORD) (w : world) : world :=
  {| com_mode := m; roots := roots w; live := live w; next_key := next_key w;
     files := files w; last_error := last_error w; requests := requests w |}.

Definition set_roots r (w : world) : world :=
  {| com_mode := com_mode w; roots := r; live := live w; next_key := next_key w;
     files := files w; last_error := last_error w; requests := requests w |}.

Definition set_live l n (w : world) : world :=
  {| com_mode := com_mode w; roots := roots w; live := l; next_key := n;
     files := files w; last_error := last_error w; requests := requests w |}.

Definition set_files f (w : world) : world :=
  {| com_mode := com_mode w; roots := roots w; live := live w; next_key := next_key w;
     files := f; last_error := last_error w; requests := requests w |}.

Definition set_last_error e (w : world) : world :=
  {| com_mode := com_mode w; roots := roots w; live := live w; next_key := next_key w;
     files := files w; last_error := e; requests := requests w |}.

Definition set_requests q (w : world) : world :=
  {| com_mode := com_mode w; roots := roots w; live := live w; next_key := next_key w;
     files := files w; last_error := last_error w; requests := q |}.

Definition ERROR_FILE_NOT_FOUND : DWORD := 2.
Definition ERROR_ALREADY_EXISTS : DWORD := 183.
Definition ERROR_CLOUD_FILE_INVALID_REQUEST : DWORD := 380.
Definition ERROR_CLOUD_FILE_NOT_UNDER_SYNC_ROOT : DWORD := 390.

Definition backslash : WCHAR := 92.

Definition child (base name : wstring) : wstring := base ++ backslash :: name.

(* A zero timestamp or attribute word in an update leaves the stored
   value as it is. *)
Definition keep_if_zero (new old : Z) : Z := if new =? 0 then old else new.

Definition merge_metadata (new old : CF_FS_METADATA) : CF_FS_METADATA :=
  {| BasicInfo :=
       {| CreationTime :=
            keep_if_zero (CreationTime (BasicInfo new)) (CreationTime (BasicInfo old));
          LastAccessTime :=
            keep_if_zero (LastAccessTime (BasicInfo new)) (LastAccessTime (BasicInfo old));
          LastWriteTime :=
            keep_if_zero (LastWriteTime (BasicInfo new)) (LastWriteTime (BasicInfo old));
          ChangeTime :=
            keep_if_zero (ChangeTime (BasicInfo new)) (ChangeTime (BasicInfo old));
          FileAttributes :=
            keep_if_zero (FileAttributes (BasicInfo new)) (FileAttributes (BasicInfo old)) |};
     FileSize := FileSize new |}.

Definition handle : platform world := fun c =>
  match c as c0 return world -> os_ret c0 * world with
  | CoInitializeEx dwCoInit => fun w =>
      match com_mode w with
      | None => (S_OK, set_com_mode (Some dwCoInit) w)
      | Some m => if m =? dwCoInit then (S_FALSE, w) else (RPC_E_CHANGED_MODE, w)
      end
  | CfRegisterSyncRoot path reg pol flags => fun w =>
      match lookup path (roots w) with
      | Some _ =>
        if Z.testbit flags 0
        then (S_OK, set_roots (upsert path (reg, pol) (roots w)) w)
        else (HRESULT_FROM_WIN32 ERROR_ALREADY_EXISTS, w)
      | None => (S_OK, set_roots (upsert path (reg, pol) (roots w)) w)
      end
  | CfConnectSyncRoot path table flags => fun w =>
      match lookup path (roots w) with
      | Some _ =>
        ((S_OK, next_key w), set_live (next_key w :: live w) (next_key w + 1) w)
      | None => ((HRESULT_FROM_WIN32 ERROR_CLOUD_FILE_NOT_UNDER_SYNC_ROOT, 0), w)
      end
  | CfDisconnectSyncRoot key => fun w =>
      if existsb (Z.eqb key) (live w)
      then (S_OK, set_live (filter (fun k => negb (key =? k)) (live w)) (next_key w) w)
      else (HRESULT_FROM_WIN32 ERROR_CLOUD_FILE_INVALID_REQUEST, w)
  | CfUnregisterSyncRoot path => fun w =>
      match lookup path (roots w) with
      | Some _ => (S_OK, set_roots (remove_key path (roots w)) w)
      | None => (HRESULT_FROM_WIN32 ERROR_CLOUD_FILE_NOT_UNDER_SYNC_ROOT, w)
      end
  | CfCreatePlaceholders base info flags => fun w =>
      let path := child base (RelativeFileName info) in
      match lookup path (files w) with
      | Some _ => ((S_OK, HRESULT_FROM_WIN32 ERROR_ALREADY_EXISTS), w)
      | None =>
        let identity := firstn (Z.to_nat (FileIdentityLength info)) (FileIdentity info) in
        ((S_OK, S_OK), set_files (upsert path (identity, FsMetadata info) (files w)) w)
      end
  | CreateFileW path _ _ _ _ => fun w =>
      match index_of path (files w) with
      | Some i => (Z.of_nat i + 1, w)
      | None => (INVALID_HANDLE_VALUE, set_last_error ERROR_FILE_NOT_FOUND w)
      end
  | GetLastError => fun w => (last_error w, w)
  | CloseHandle _ => fun w => (1, w)
  | CfUpdatePlaceholder h md identity len flags => fun w =>
      match nth_error (files w) (Z.to_nat (h - 1)) with
      | Some _ =>
        (S_OK,
         set_files
           (replace_nth (Z.to_nat (h - 1))
              (fun kv => (fst kv, (firstn (Z.to_nat len) identity,
                                   merge_metadata md (snd (snd kv)))))
              (files w)) w)
      | None => (HRESULT_FROM_WIN32 ERROR_CLOUD_FILE_INVALID_REQUEST, w)
      end
  | CfDehydratePlaceholder h _ _ _ => fun w =>
      match nth_error (files w) (Z.to_nat (h - 1)) with
      | Some _ => (S_OK, w)
      | None => (HRESULT_FROM_WIN32 ERROR_CLOUD_FILE_INVALID_REQUEST, w)
      end
  | CfExecute opInfo opParams => fun w =>
      if existsb (Z.eqb (ConnectionKey opInfo)) (live w)
      then (S_OK, w)
      else (HRESULT_FROM_WIN32 ERROR_CLOUD_FILE_INVALID_REQUEST, w)
  | goHydrationCallback identity len offset length key => fun w =>
      (tt,
       set_requests
         (requests w ++
            [{| req_identity := firstn (Z.to_nat len) identity;
                req_offset := offset; req_length := length;
                req_transfer_key := key |}]) w)
  end.

(* Observations of the reference platform. *)
Definition root_state (w : world) (path : wstring)
    : option (CF_SYNC_REGISTRATION * CF_SYNC_POLICIES) :=
  lookup path (roots w).

Definition read_placeholder (w : world) (base name : wstring)
    : option (list byte * CF_FS_METADATA) :=
  lookup (child base name) (files w).

Definition stale (w : world) (key : CF_CONNECTION_KEY) : Prop :=
  existsb (Z.eqb key) (live w) = false.

(* The conversion of 7-bit text: one code unit per byte up to the
   terminator, and the terminator. *)
Definition ascii_to_wide (s : c_string) : list WCHAR :=
  map (fun b => Z.of_N (Byte.to_N b)) (firstn (strlen s) s) ++ [0].

End RefOS.

(** ** What the platform is relied on for

    The claims that speak of the root state, of a metadata read or of a
    stale key speak of the platform's side.  Each such reliance is a
    predicate on a platform, stated over an observation of its state. *)

(* CfRegisterSyncRoot with CF_REGISTER_FLAG_UPDATE creates the root or
   updates it in place: a successful call leaves the given registration at
   the path and every other path as it was, and submitting again the
   registration a path already has succeeds. *)
Definition registers_by_upsert {W : Type} (h : platform W)
    (root_state : W -> wstring -> option (CF_SYNC_REGISTRATION * CF_SYNC_POLICIES))
    : Prop :=
  forall path reg pol w,
    let r := h (CfRegisterSyncRoot path reg pol CF_REGISTER_FLAG_UPDATE) w in
    (SUCCEEDED (fst r) = true ->
       root_state (snd r) path = Some (reg, pol) /\
       forall q, q <> path -> root_state (snd r) q = root_state w q) /\
    (root_state w path = Some (reg, pol) -> SUCCEEDED (fst r) = true).

(* A placeholder the platform reports created can be read back under its
   parent and name: the identity is the [FileIdentityLength] bytes at
   [FileIdentity], the metadata is the submitted one. *)
Definition stores_placeholders {W : Type} (h : platform W)
    (read : W -> wstring -> wstring -> option (list byte * CF_FS_METADATA)) : Prop :=
  forall base info flags w,
    let r := h (CfCreatePlaceholders base info flags) w in
    SUCCEEDED (fst (fst r)) = true ->
    SUCCEEDED (snd (fst r)) = true ->
    read (snd r) base (RelativeFileName info)
      = Some (firstn (Z.to_nat (FileIdentityLength info)) (FileIdentity info),
              FsMetadata info).

(* A transfer operation on a connection key that is no longer live is
   refused with a failure status. *)
Definition rejects_stale_keys {W : Type} (h : platform W)
    (stale : W -> CF_CONNECTION_KEY -> Prop) : Prop :=
  forall opInfo opParams w,
    stale w (ConnectionKey opInfo) ->
    FAILED (fst (h (CfExecute opInfo opParams) w)) = true.

(* CfDisconnectSyncRoot leaves the key it was given not live. *)
Definition disconnect_invalidates {W : Type} (h : platform W)
    (stale : W -> CF_CONNECTION_KEY -> Prop) : Prop :=
  forall key w, stale (snd (h (CfDisconnectSyncRoot key) w)) key.

(* The reading side of the time codec: the whole Unix seconds of a
   timestamp in 100-ns units since 1601. *)
Definition whole_seconds (filetime : Z) : Z := filetime / 10000000 - 11644473600.

Definition no_nul (B : list byte) : Prop := ~ In x00 B.

(** ** The sentences of the specification that the code does not meet,
       as they are written *)

Section AsStated.

Variable MultiByteToWideChar : c_string -> list WCHAR.

(* Round-trip of creation for an arbitrary blob [B]. *)
Definition spec_roundtrip_any_blob (B : list byte) (S T : Z) : Prop :=
  forall (W : Type) (h : platform W) read,
    stores_placeholders h read ->
    forall w parent_path name is_directory,
      let r := run h (cfapi_create_placeholder MultiByteToWideChar
                        parent_path name B S T is_directory) w in
      SUCCEEDED (fst r) = true ->
      exists md,
        read (snd r) (Utf8ToWide MultiByteToWideChar parent_path)
                     (Utf8ToWide MultiByteToWideChar name) = Some (B, md) /\
        FileSize md = S /\
        whole_seconds (CreationTime (BasicInfo md)) = T /\
        whole_seconds (LastWriteTime (BasicInfo md)) = T /\
        whole_seconds (ChangeTime (BasicInfo md)) = T /\
        whole_seconds (LastAccessTime (BasicInfo md)) = T.

(* The four timestamps of creation, for an arbitrary [T]. *)
Definition spec_timestamps_any_time (T : Z) : Prop :=
  forall (W : Type) (h : platform W) w parent_path name file_identity file_size
         is_directory,
    exists base info flags,
      calls h (cfapi_create_placeholder MultiByteToWideChar
                 parent_path name file_identity file_size T is_directory) w
        = [CfCreatePlaceholders base info flags] /\
      CreationTime (BasicInfo (FsMetadata info)) = (T + 11644473600) * 10000000 /\
      LastWriteTime (BasicInfo (FsMetadata info)) = (T + 11644473600) * 10000000 /\
      ChangeTime (BasicInfo (FsMetadata info)) = (T + 11644473600) * 10000000 /\
      LastAccessTime (BasicInfo (FsMetadata info)) = (T + 11644473600) * 10000000.

End AsStated.

(* Fail tells its caller of a stale key: some reading of the value it
   returns is "error" whenever the key is stale and "no error" whenever the
   platform accepted the operation. *)
Definition spec_fail_reports_stale_key : Prop :=
  exists is_error : unit -> bool,
    forall (W : Type) (h : platform W) stale,
      rejects_stale_keys h stale ->
      forall w conn_key transfer_key offset hr,
        (stale w conn_key ->
           is_error (fst (run h (cfapi_transfer_error conn_key transfer_key offset hr) w))
             = true) /\
        ((forall opInfo opParams,
            ConnectionKey opInfo = conn_key ->
            SUCCEEDED (fst (h (CfExecute opInfo opParams) w)) = true) ->
           is_error (fst (run h (cfapi_transfer_error conn_key transfer_key offset hr) w))
             = false).

(* init hands back every failing platform status unchanged. *)
Definition spec_init_status_verbatim : Prop :=
  forall (W : Type) (h : platform W) w,
    let hr := fst (h (CoInitializeEx COINIT_MULTITHREADED) w) in
    FAILED hr = true -> fst (run h cfapi_init w) = hr.

(** ** Concrete inputs *)

(* "C:\sync", "a.txt", "id-1", "FruitSalade", "1.0" *)
Definition text_sync_root : c_string := [x43; x3a; x5c; x73; x79; x6e; x63].
Definition text_a_txt : c_string := [x61; x2e; x74; x78; x74].
Definition text_id_1 : c_string := [x69; x64; x2d; x31].
Definition text_provider : c_string :=
  [x46; x72; x75; x69; x74; x53; x61; x6c; x61; x64; x65].
Definition text_version : c_string := [x31; x2e; x30].

(* "a", a zero byte, "b" *)
Definition blob_with_nul : list byte := [x61; x00; x62].

(* A thread whose COM apartment was set up single-threaded
   (COINIT_APARTMENTTHREADED = 2) before the shim is initialised. *)
Definition world_sta : RefOS.world := RefOS.set_com_mode (Some 2) RefOS.boot.

(* A platform state with connection key 1 live. *)
Definition world_connected : RefOS.world := RefOS.set_live [1] 2 RefOS.boot.

(** ** Handles along a run

    Bookkeeping over the calls of a program: which file handles it holds
    (opened with success and not yet closed), and whether every call that
    takes a handle is given one it holds and nothing is held at the end. *)

Definition track_handle (c : os_call) : os_ret c -> list HANDLE -> list HANDLE :=
  match c as c0 return os_ret c0 -> list HANDLE -> list HANDLE with
  | CreateFileW _ _ _ _ _ => fun x held =>
      if x =? INVALID_HANDLE_VALUE then held else x :: held
  | CloseHandle hObject => fun _ held => List.remove Z.eq_dec hObject held
  | CoInitializeEx _ => fun _ held => held
  | CfRegisterSyncRoot _ _ _ _ => fun _ held => held
  | CfConnectSyncRoot _ _ _ => fun _ held => held
  | CfDisconnectSyncRoot _ => fun _ held => held
  | CfUnregisterSyncRoot _ => fun _ held => held
  | CfCreatePlaceholders _ _ _ => fun _ held => held
  | GetLastError => fun _ held => held
  | CfUpdatePlaceholder _ _ _ _ _ => fun _ held => held
  | CfDehydratePlaceholder _ _ _ _ => fun _ held => held
  | CfExecute _ _ => fun _ held => held
  | goHydrationCallback _ _ _ _ _ => fun _ held => held
  end.

Definition uses_handle (c : os_call) : option HANDLE :=
  match c with
  | CloseHandle x => Some x
  | CfUpdatePlaceholder x _ _ _ _ => Some x
  | CfDehydratePlaceholder x _ _ _ => Some x
  | _ => None
  end.

Fixpoint handles_ok {W R : Type} (h : platform W) (p : Prog R) (w : W)
    (held : list HANDLE) : bool :=
  match p with
  | Ret _ => match held with [] => true | _ :: _ => false end
  | Call c k =>
    let (x, w') := h c w in
    match uses_handle c with
    | Some hd => existsb (Z.eqb hd) held
    | None => true
    end && handles_ok h (k x) w' (track_handle c x held)
  end.

(* A path argument that is the null pointer or points at a terminator. *)
Definition empty_arg (utf8 : option c_string) : Prop :=
  match utf8 with
  | None => True
  | Some s => strlen s = O
  end.

(* The state the reference platform is in once "a.txt" exists under
   "C:\sync". *)
Definition world_with_file : RefOS.world :=
  snd (run RefOS.handle
         (cfapi_create_placeholder RefOS.ascii_to_wide
            (Some text_sync_root) (Some text_a_txt) text_id_1 1024 1700000000 0)
         RefOS.boot).

(* The Unix times whose FILETIME fits the signed 64-bit field: from
   -2^63 / 10^7 - 11644473600 up to 2^63 / 10^7 - 11644473600, rounded
   inwards. *)
Definition exact_range (T : Z) : Prop := -933981677285 <= T <= 910692730085.

(* The entry CreatePlaceholder submits for "a.txt" with identity "id-1",
   size 1024 and time 1700000000, and a FetchData callback for it. *)
Definition entry_a_txt : CF_PLACEHOLDER_CREATE_INFO :=
  {| RelativeFileName := [97; 46; 116; 120; 116];
     FsMetadata :=
       {| BasicInfo :=
            {| CreationTime := 133444736000000000;
               LastAccessTime := 133444736000000000;
               LastWriteTime := 133444736000000000;
               ChangeTime := 133444736000000000;
               FileAttributes := 0x80 |};
          FileSize := 1024 |};
     FileIdentity := text_id_1;
     FileIdentityLength := 4;
     Flags := 2;
     Result := 0 |}.

Definition callback_a_txt : CF_CALLBACK_INFO :=
  {| cb_FileIdentity := text_id_1; cb_FileIdentityLength := 4; cb_TransferKey := 9 |}.

Definition fetch_first_kilobyte : CF_CALLBACK_PARAMETERS :=
  {| RequiredFileOffset := 0; RequiredLength := 1024 |}.

(** ** The time codec *)

Lemma wrap_s_mod (w x : Z) : Int.wrap_s w (x mod 2 ^ w) = Int.wrap_s w x.
Proof.
  unfold Int.wrap_s.
  destruct (Z.eq_dec (2 ^ w) 0) as [E | E].
  - rewrite E. now rewrite !Z.mod_0_r.
  - now rewrite Z.mod_mod.
Qed.

Lemma s64_id (x : Z) : Int.in_s64 x -> Int.s64 x = x.
Proof.
  unfold Int.in_s64, Int.s64, Int.wrap_s. intros H.
  change (2 ^ 64) with 18446744073709551616.
  change (2 ^ (64 - 1)) with 9223372036854775808.
  change (2 ^ 63) with 9223372036854775808 in H.
  destruct (Z_lt_le_dec x 0) as [Hneg | Hpos].
  - replace (x mod 18446744073709551616) with (x + 18446744073709551616).
    + destruct (Z.ltb_spec (x + 18446744073709551616) 9223372036854775808); lia.
    + apply Z.mod_unique with (q := -1); lia.
  - rewrite Z.mod_small by lia.
    destruct (Z.ltb_spec x 9223372036854775808); lia.
Qed.

(* The two halves of a FILETIME glue back to the 64-bit word they were cut
   from. *)
Lemma halves_glue (q : Z) :
  Z.lor (Z.land q 0xFFFFFFFF) (Z.shiftl (Z.shiftr q 32) 32) = q.
Proof.
  change 0xFFFFFFFF with (Z.ones 32).
  apply Z.bits_inj'. intros n Hn.
  rewrite Z.lor_spec, Z.land_spec.
  destruct (Z_lt_le_dec n 32) as [Hlo | Hhi].
  - rewrite Z.ones_spec_low by lia.
    rewrite Z.shiftl_spec_low by lia.
    now rewrite andb_true_r, orb_false_r.
  - rewrite Z.ones_spec_high by lia.
    rewrite Z.shiftl_spec by lia.
    rewrite Z.shiftr_spec by lia.
    rewrite andb_false_r. simpl. f_equal. lia.
Qed.

Lemma u64_formula (T : Z) :
  Int.u64 ((Int.u64 T + 11644473600) * 10000000)
  = Int.u64 ((T + 11644473600) * 10000000).
Proof.
  unfold Int.u64, Int.wrap_u.
  rewrite <- Z.mul_mod_idemp_l by (now compute).
  rewrite Z.add_mod_idemp_l by (now compute).
  now rewrite Z.mul_mod_idemp_l by (now compute).
Qed.

(* What every timestamp field built from [UnixToFileTime] holds. *)
Lemma filetime_field (T : Z) :
  reinterpret_LONGLONG (UnixToFileTime T)
  = Int.s64 ((T + 11644473600) * 10000000).
Proof.
  unfold reinterpret_LONGLONG, UnixToFileTime. cbv zeta.
  cbn [dwLowDateTime dwHighDateTime].
  rewrite halves_glue, u64_formula.
  apply wrap_s_mod.
Qed.

Lemma filetime_field_exact (T : Z) :
  Int.in_s64 ((T + 11644473600) * 10000000) ->
  reinterpret_LONGLONG (UnixToFileTime T) = (T + 11644473600) * 10000000.
Proof.
  intros H. rewrite filetime_field. now apply s64_id.
Qed.

Lemma whole_seconds_inverse (T : Z) :
  whole_seconds ((T + 11644473600) * 10000000) = T.
Proof.
  unfold whole_seconds. rewrite Z.div_mul by lia. lia.
Qed.

(** ** Strings *)

Lemma strlen_no_nul (B : list byte) : no_nul B -> strlen B = List.length B.
Proof.
  unfold no_nul. induction B as [| b B IH]; intros H; simpl.
  - reflexivity.
  - destruct (Byte.eqb b x00) eqn:E.
    + apply Byte.byte_dec_bl in E. subst b. exfalso. apply H. now left.
    + f_equal. apply IH. intros Hin. apply H. now right.
Qed.

Lemma strlen_le (s : c_string) : (strlen s <= List.length s)%nat.
Proof.
  induction s as [| b s IH]; simpl.
  - lia.
  - destruct (Byte.eqb b x00); lia.
Qed.

(** ** The shim on concrete inputs *)

Example strlen_stops_at_nul : strlen blob_with_nul = 1%nat.
Proof. reflexivity. Qed.

Example strlen_of_text : strlen text_id_1 = 4%nat.
Proof. reflexivity. Qed.

Example filetime_of_unix_epoch :
  UnixToFileTime 0 = {| dwLowDateTime := 3577643008; dwHighDateTime := 27111902 |}
  /\ reinterpret_LONGLONG (UnixToFileTime 0) = 116444736000000000.
Proof. split; reflexivity. Qed.

Example filetime_before_1601 :
  reinterpret_LONGLONG (UnixToFileTime (-11644473601)) = -10000000.
Proof. reflexivity. Qed.

Example hresult_of_file_not_found :
  HRESULT_FROM_WIN32 2 = Int.s32 0x80070002 /\ FAILED (HRESULT_FROM_WIN32 2) = true.
Proof. split; reflexivity. Qed.

Example init_on_fresh_thread :
  fst (run RefOS.handle cfapi_init RefOS.boot) = 0
  /\ calls RefOS.handle cfapi_init RefOS.boot = [CoInitializeEx 0].
Proof. split; reflexivity. Qed.

Example update_of_missing_file :
  fst (run RefOS.handle
         (cfapi_update_placeholder RefOS.ascii_to_wide
            (Some text_a_txt) text_id_1 10 1700000000) RefOS.boot)
  = Int.s32 0x80070002.
Proof. reflexivity. Qed.

(** ** Running the shim *)

Lemma run_call {W : Type} (h : platform W) (c : os_call) (w : W) :
  run h (call c) w = h c w.
Proof.
  unfold call. simpl. now destruct (h c w).
Qed.

Lemma run_bind {W A B : Type} (h : platform W) (p : Prog A) (f : A -> Prog B) (w : W) :
  run h (bind p f) w = run h (f (fst (run h p w))) (snd (run h p w)).
Proof.
  revert w. induction p as [a | c k IH]; intros w; simpl.
  - reflexivity.
  - destruct (h c w) as [x w']. apply IH.
Qed.

Lemma calls_bind {W A B : Type} (h : platform W) (p : Prog A) (f : A -> Prog B) (w : W) :
  calls h (bind p f) w
  = calls h p w ++ calls h (f (fst (run h p w))) (snd (run h p w)).
Proof.
  revert w. induction p as [a | c k IH]; intros w; simpl.
  - reflexivity.
  - destruct (h c w) as [x w']. simpl. f_equal. apply IH.
Qed.

Lemma calls_call {W : Type} (h : platform W) (c : os_call) (w : W) :
  calls h (call c) w = [c].
Proof.
  unfold call. simpl. now destruct (h c w).
Qed.

Create Rewrite HintDb shim.
#[local] Hint Rewrite @run_bind @run_call @calls_bind @calls_call : shim.

Ltac shim_run := autorewrite with shim; cbn [run calls fst snd app].

Section Properties.

Variable MultiByteToWideChar : c_string -> list WCHAR.

Variable W : Type.
Variable h : platform W.

(** C7.  Whatever the root path, display name and version, and whatever the
    platform answers, a registration is one CfRegisterSyncRoot call whose
    registration struct carries the provider identifier
    {A1B2C3D4-E5F6-7890-ABCD-EF1234567890} and whose policy struct is
    Hydration.Primary = FULL, Population.Primary = FULL, InSync = TRACK_ALL,
    HardLink = NONE. *)
Theorem register_submits_fixed_provider_and_policies :
  forall (w : W) (sync_root_path display_name version : option c_string),
  exists path reg pol flags,
    calls h (cfapi_register_sync_root MultiByteToWideChar
               sync_root_path display_name version) w
      = [CfRegisterSyncRoot path reg pol flags] /\
    ProviderId reg
      = {| Data1 := 0xa1b2c3d4; Data2 := 0xe5f6; Data3 := 0x7890;
           Data4 := [0xab; 0xcd; 0xef; 0x12; 0x34; 0x56; 0x78; 0x90] |} /\
    ProviderId reg = s_providerId /\
    Hydration_Primary pol = CF_HYDRATION_POLICY_FULL /\
    Population_Primary pol = CF_POPULATION_POLICY_FULL /\
    InSync pol = CF_INSYNC_POLICY_TRACK_ALL /\
    HardLink pol = CF_HARDLINK_POLICY_NONE.
Proof.
  intros w sync_root_path display_name version.
  unfold cfapi_register_sync_root. cbv zeta.
  do 4 eexists. split.
  - shim_run. reflexivity.
  - repeat split.
Qed.

(** C8.  A CreatePlaceholder call is one CfCreatePlaceholders call.  With
    is_directory nonzero its entry has the directory attribute and the
    creation flags MARK_IN_SYNC | DISABLE_ON_DEMAND_POPULATION (both bits and
    no other); with is_directory zero it has the normal attribute and the
    creation flag MARK_IN_SYNC alone. *)
Theorem create_attributes_and_flags :
  forall (w : W) (parent_path name : option c_string) (file_identity : c_string)
         (file_size mtime_unix is_directory : Z),
  exists base info flags,
    calls h (cfapi_create_placeholder MultiByteToWideChar
               parent_path name file_identity file_size mtime_unix is_directory) w
      = [CfCreatePlaceholders base info flags] /\
    if is_directory =? 0
    then FileAttributes (BasicInfo (FsMetadata info)) = FILE_ATTRIBUTE_NORMAL /\
         Flags info = CF_PLACEHOLDER_CREATE_FLAG_MARK_IN_SYNC
    else FileAttributes (BasicInfo (FsMetadata info)) = FILE_ATTRIBUTE_DIRECTORY /\
         Flags info = Z.lor CF_PLACEHOLDER_CREATE_FLAG_MARK_IN_SYNC
                            CF_PLACEHOLDER_CREATE_FLAG_DISABLE_ON_DEMAND_POPULATION /\
         Z.land (Flags info) CF_PLACEHOLDER_CREATE_FLAG_DISABLE_ON_DEMAND_POPULATION
           = CF_PLACEHOLDER_CREATE_FLAG_DISABLE_ON_DEMAND_POPULATION /\
         Z.land (Flags info) CF_PLACEHOLDER_CREATE_FLAG_MARK_IN_SYNC
           = CF_PLACEHOLDER_CREATE_FLAG_MARK_IN_SYNC.
Proof.
  intros w parent_path name file_identity file_size mtime_unix is_directory.
  unfold cfapi_create_placeholder. cbv zeta.
  do 3 eexists. split.
  - shim_run. reflexivity.
  - cbn [FsMetadata BasicInfo FileAttributes Flags].
    destruct (is_directory =? 0); cbn [negb fst snd]; repeat split.
Qed.

(** C10.  An UpdatePlaceholder call opens the file and, when the handle is
    valid, issues one CfUpdatePlaceholder call whose metadata record has the
    given file size, last-write and change time set from the input time, and
    creation time, last-access time and attributes left zero, next to the new
    identity; when the open fails nothing is pushed.  A CreatePlaceholder
    call sets all four timestamp fields from the input time. *)
Theorem update_pushes_size_write_and_change_time_only :
  forall (w : W) (file_path : option c_string) (file_identity : c_string)
         (file_size mtime_unix : Z),
    let ft := Int.s64 ((mtime_unix + 11644473600) * 10000000) in
    (exists path a s d f,
       (calls h (cfapi_update_placeholder MultiByteToWideChar
                   file_path file_identity file_size mtime_unix) w
          = [CreateFileW path a s d f; GetLastError] /\
        fst (h (CreateFileW path a s d f) w) = INVALID_HANDLE_VALUE)
       \/
       (exists hFile md flags,
          calls h (cfapi_update_placeholder MultiByteToWideChar
                     file_path file_identity file_size mtime_unix) w
            = [CreateFileW path a s d f;
               CfUpdatePlaceholder hFile md file_identity
                 (Int.u32 (Z.of_nat (strlen file_identity))) flags;
               CloseHandle hFile] /\
          fst (h (CreateFileW path a s d f) w) = hFile /\
          hFile <> INVALID_HANDLE_VALUE /\
          FileSize md = file_size /\
          LastWriteTime (BasicInfo md) = ft /\
          ChangeTime (BasicInfo md) = ft /\
          CreationTime (BasicInfo md) = 0 /\
          LastAccessTime (BasicInfo md) = 0 /\
          FileAttributes (BasicInfo md) = 0))
    /\
    (forall parent_path name is_directory,
     exists base info flags,
       calls h (cfapi_create_placeholder MultiByteToWideChar
                  parent_path name file_identity file_size mtime_unix is_directory) w
         = [CfCreatePlaceholders base info flags] /\
       CreationTime (BasicInfo (FsMetadata info)) = ft /\
       LastAccessTime (BasicInfo (FsMetadata info)) = ft /\
       LastWriteTime (BasicInfo (FsMetadata info)) = ft /\
       ChangeTime (BasicInfo (FsMetadata info)) = ft).
Proof.
  intros w file_path file_identity file_size mtime_unix ft. split.
  - unfold cfapi_update_placeholder. cbv zeta.
    do 5 eexists.
    match goal with
    | |- context [h (CreateFileW ?p ?a ?s ?d ?f) w] =>
        destruct (fst (h (CreateFileW p a s d f) w) =? INVALID_HANDLE_VALUE) eqn:E
    end.
    + left. split.
      * shim_run. rewrite E. shim_run. reflexivity.
      * now apply Z.eqb_eq.
    + right. do 3 eexists. split; [| split; [reflexivity |]].
      * shim_run. rewrite E. shim_run. reflexivity.
      * cbn [FileSize BasicInfo LastWriteTime ChangeTime CreationTime
               LastAccessTime FileAttributes].
        rewrite filetime_field.
        apply Z.eqb_neq in E. repeat split. exact E.
  - intros parent_path name is_directory.
    unfold cfapi_create_placeholder. cbv zeta.
    do 3 eexists. split.
    + shim_run. reflexivity.
    + cbn [FsMetadata BasicInfo CreationTime LastAccessTime LastWriteTime ChangeTime].
      rewrite filetime_field. repeat split.
Qed.


(** C9.  A Fail call with a nonzero error code is one CfExecute call of type
    TRANSFER_DATA whose record carries the given connection key and transfer
    key, a nonzero completion status equal to the given error code, a null
    buffer, the given offset and length 0.  A Complete call is one CfExecute
    call whose record carries the two keys, completion status 0, the given
    buffer, offset and length. *)
Theorem transfer_completion_records :
  forall (w : W) (conn_key : CF_CONNECTION_KEY) (transfer_key : CF_TRANSFER_KEY)
         (data : option (list byte)) (offset length hr : Z),
    (hr <> 0 ->
     exists opInfo opParams,
       calls h (cfapi_transfer_error conn_key transfer_key offset hr) w
         = [CfExecute opInfo opParams] /\
       Type_ opInfo = CF_OPERATION_TYPE_TRANSFER_DATA /\
       ConnectionKey opInfo = conn_key /\
       TransferKey opInfo = transfer_key /\
       CompletionStatus opParams <> 0 /\
       CompletionStatus opParams = hr /\
       Buffer opParams = None /\
       Offset opParams = offset /\
       Length opParams = 0)
    /\
    (exists opInfo opParams,
       calls h (cfapi_transfer_data conn_key transfer_key data offset length) w
         = [CfExecute opInfo opParams] /\
       Type_ opInfo = CF_OPERATION_TYPE_TRANSFER_DATA /\
       ConnectionKey opInfo = conn_key /\
       TransferKey opInfo = transfer_key /\
       CompletionStatus opParams = 0 /\
       Buffer opParams = data /\
       Offset opParams = offset /\
       Length opParams = length).
Proof.
  intros w conn_key transfer_key data offset length hr. split.
  - intros Hcode.
    unfold cfapi_transfer_error. cbv zeta.
    do 2 eexists. split.
    + shim_run. reflexivity.
    + cbn [Type_ ConnectionKey TransferKey CompletionStatus Buffer Offset Length].
      unfold static_cast_NTSTATUS. repeat split. exact Hcode.
  - unfold cfapi_transfer_data. cbv zeta.
    do 2 eexists. split.
    + shim_run. reflexivity.
    + repeat split.
Qed.

(** C3 (amended).  Whatever the Unix timestamp, the creation path gives the
    four timestamp fields one and the same value, the 64-bit two's-complement
    reduction of (unix_seconds + 11644473600) * 10_000_000; whenever that
    product is representable in the signed 64-bit field, the value is the
    product itself. *)
Theorem create_timestamps :
  forall (w : W) (parent_path name : option c_string) (file_identity : c_string)
         (file_size mtime_unix is_directory : Z),
  exists base info flags,
    calls h (cfapi_create_placeholder MultiByteToWideChar
               parent_path name file_identity file_size mtime_unix is_directory) w
      = [CfCreatePlaceholders base info flags] /\
    CreationTime (BasicInfo (FsMetadata info))
      = Int.s64 ((mtime_unix + 11644473600) * 10000000) /\
    LastWriteTime (BasicInfo (FsMetadata info))
      = CreationTime (BasicInfo (FsMetadata info)) /\
    ChangeTime (BasicInfo (FsMetadata info))
      = CreationTime (BasicInfo (FsMetadata info)) /\
    LastAccessTime (BasicInfo (FsMetadata info))
      = CreationTime (BasicInfo (FsMetadata info)) /\
    (Int.in_s64 ((mtime_unix + 11644473600) * 10000000) ->
     CreationTime (BasicInfo (FsMetadata info))
       = (mtime_unix + 11644473600) * 10000000).
Proof.
  intros w parent_path name file_identity file_size mtime_unix is_directory.
  unfold cfapi_create_placeholder. cbv zeta.
  do 3 eexists. split.
  - shim_run. reflexivity.
  - cbn [FsMetadata BasicInfo CreationTime LastAccessTime LastWriteTime ChangeTime].
    rewrite filetime_field. repeat split.
    apply s64_id.
Qed.

(** C4 (amended).  The status a synchronous operation returns is the
    platform's own: register, unregister, connect and transfer-data return
    the HRESULT of their platform call unchanged; create returns the HRESULT
    of CfCreatePlaceholders, or the entry's Result when the call succeeded
    and the entry failed; update and dehydrate return the HRESULT of their
    placeholder call, or HRESULT_FROM_WIN32 of the last error when the file
    cannot be opened; init returns a failing HRESULT unchanged, except
    RPC_E_CHANGED_MODE, which like every success code it reports as 0. *)
Theorem status_is_platform_status :
  forall (w : W),
    (let hr := fst (h (CoInitializeEx COINIT_MULTITHREADED) w) in
     fst (run h cfapi_init w)
       = if FAILED hr && negb (hr =? RPC_E_CHANGED_MODE) then hr else 0)
    /\
    (forall sync_root_path display_name version,
     exists path reg pol flags,
       calls h (cfapi_register_sync_root MultiByteToWideChar
                  sync_root_path display_name version) w
         = [CfRegisterSyncRoot path reg pol flags] /\
       fst (run h (cfapi_register_sync_root MultiByteToWideChar
                     sync_root_path display_name version) w)
         = fst (h (CfRegisterSyncRoot path reg pol flags) w))
    /\
    (forall sync_root_path,
     exists path,
       calls h (cfapi_unregister_sync_root MultiByteToWideChar sync_root_path) w
         = [CfUnregisterSyncRoot path] /\
       fst (run h (cfapi_unregister_sync_root MultiByteToWideChar sync_root_path) w)
         = fst (h (CfUnregisterSyncRoot path) w))
    /\
    (forall sync_root_path,
     exists path table flags,
       calls h (cfapi_connect_sync_root MultiByteToWideChar sync_root_path) w
         = [CfConnectSyncRoot path table flags] /\
       fst (fst (run h (cfapi_connect_sync_root MultiByteToWideChar sync_root_path) w))
         = fst (fst (h (CfConnectSyncRoot path table flags) w)))
    /\
    (forall parent_path name file_identity file_size mtime_unix is_directory,
     exists base info flags,
       calls h (cfapi_create_placeholder MultiByteToWideChar
                  parent_path name file_identity file_size mtime_unix is_directory) w
         = [CfCreatePlaceholders base info flags] /\
       let r := fst (h (CfCreatePlaceholders base info flags) w) in
       fst (run h (cfapi_create_placeholder MultiByteToWideChar
                     parent_path name file_identity file_size mtime_unix is_directory) w)
         = if SUCCEEDED (fst r) && FAILED (snd r) then snd r else fst r)
    /\
    (forall file_path file_identity file_size mtime_unix,
     exists path a s d f,
       let opened := h (CreateFileW path a s d f) w in
       if fst opened =? INVALID_HANDLE_VALUE
       then
         calls h (cfapi_update_placeholder MultiByteToWideChar
                    file_path file_identity file_size mtime_unix) w
           = [CreateFileW path a s d f; GetLastError] /\
         fst (run h (cfapi_update_placeholder MultiByteToWideChar
                       file_path file_identity file_size mtime_unix) w)
           = HRESULT_FROM_WIN32 (fst (h GetLastError (snd opened)))
       else
         exists md ident len flags,
           calls h (cfapi_update_placeholder MultiByteToWideChar
                      file_path file_identity file_size mtime_unix) w
             = [CreateFileW path a s d f;
                CfUpdatePlaceholder (fst opened) md ident len flags;
                CloseHandle (fst opened)] /\
           fst (run h (cfapi_update_placeholder MultiByteToWideChar
                         file_path file_identity file_size mtime_unix) w)
             = fst (h (CfUpdatePlaceholder (fst opened) md ident len flags)
                      (snd opened)))
    /\
    (forall file_path,
     exists path a s d f,
       let opened := h (CreateFileW path a s d f) w in
       if fst opened =? INVALID_HANDLE_VALUE
       then
         calls h (cfapi_dehydrate_placeholder MultiByteToWideChar file_path) w
           = [CreateFileW path a s d f; GetLastError] /\
         fst (run h (cfapi_dehydrate_placeholder MultiByteToWideChar file_path) w)
           = HRESULT_FROM_WIN32 (fst (h GetLastError (snd opened)))
       else
         exists start len flags,
           calls h (cfapi_dehydrate_placeholder MultiByteToWideChar file_path) w
             = [CreateFileW path a s d f;
                CfDehydratePlaceholder (fst opened) start len flags;
                CloseHandle (fst opened)] /\
           fst (run h (cfapi_dehydrate_placeholder MultiByteToWideChar file_path) w)
             = fst (h (CfDehydratePlaceholder (fst opened) start len flags)
                      (snd opened)))
    /\
    (forall conn_key transfer_key data offset length,
     exists opInfo opParams,
       calls h (cfapi_transfer_data conn_key transfer_key data offset length) w
         = [CfExecute opInfo opParams] /\
       fst (run h (cfapi_transfer_data conn_key transfer_key data offset length) w)
         = fst (h (CfExecute opInfo opParams) w)).
Proof.
  intros w. repeat apply conj.
  - unfold cfapi_init. shim_run.
    destruct (FAILED _ && negb _); reflexivity.
  - intros. unfold cfapi_register_sync_root. cbv zeta.
    do 4 eexists. split; shim_run; reflexivity.
  - intros. unfold cfapi_unregister_sync_root. cbv zeta.
    eexists. split; shim_run; reflexivity.
  - intros. unfold cfapi_connect_sync_root. cbv zeta.
    do 3 eexists. split; shim_run; reflexivity.
  - intros. unfold cfapi_create_placeholder. cbv zeta.
    do 3 eexists. split; shim_run; reflexivity.
  - intros. unfold cfapi_update_placeholder. cbv zeta.
    do 5 eexists. cbv zeta.
    match goal with
    | |- context [h (CreateFileW ?p ?a ?s ?d ?f) w] =>
        destruct (fst (h (CreateFileW p a s d f) w) =? INVALID_HANDLE_VALUE) eqn:E
    end.
    + split; shim_run; rewrite E; shim_run; reflexivity.
    + do 4 eexists. split; shim_run; rewrite E; shim_run; reflexivity.
  - intros. unfold cfapi_dehydrate_placeholder. cbv zeta.
    do 5 eexists. cbv zeta.
    match goal with
    | |- context [h (CreateFileW ?p ?a ?s ?d ?f) w] =>
        destruct (fst (h (CreateFileW p a s d f) w) =? INVALID_HANDLE_VALUE) eqn:E
    end.
    + split; shim_run; rewrite E; shim_run; reflexivity.
    + do 3 eexists. split; shim_run; rewrite E; shim_run; reflexivity.
  - intros. unfold cfapi_transfer_data. cbv zeta.
    do 2 eexists. split; shim_run; reflexivity.
Qed.

(** C2 (amended).  On a platform that refuses transfer operations on stale
    connection keys, Complete with a stale key runs to its end and returns
    the platform's failure status, the one its CfExecute call was answered
    with; Fail with a stale key runs to its end too and issues its CfExecute
    call, which is refused, but returns no status: whatever a caller reads
    off Fail's return value is the same as on any other call of Fail. *)
Theorem stale_key_transfer :
  forall (stale : W -> CF_CONNECTION_KEY -> Prop),
    rejects_stale_keys h stale ->
    forall (w : W) (conn_key : CF_CONNECTION_KEY) (transfer_key : CF_TRANSFER_KEY)
           (data : option (list byte)) (offset length hr : Z),
      stale w conn_key ->
      (exists opInfo opParams,
         calls h (cfapi_transfer_data conn_key transfer_key data offset length) w
           = [CfExecute opInfo opParams] /\
         fst (run h (cfapi_transfer_data conn_key transfer_key data offset length) w)
           = fst (h (CfExecute opInfo opParams) w) /\
         FAILED (fst (run h (cfapi_transfer_data conn_key transfer_key data
                               offset length) w)) = true)
      /\
      (exists opInfo opParams,
         calls h (cfapi_transfer_error conn_key transfer_key offset hr) w
           = [CfExecute opInfo opParams] /\
         FAILED (fst (h (CfExecute opInfo opParams) w)) = true /\
         forall (W' : Type) (h' : platform W') (w' : W') conn_key' transfer_key'
                offset' hr',
           fst (run h (cfapi_transfer_error conn_key transfer_key offset hr) w)
           = fst (run h' (cfapi_transfer_error conn_key' transfer_key' offset' hr') w')).
Proof.
  intros stale Hrej w conn_key transfer_key data offset length hr Hstale. split.
  - unfold cfapi_transfer_data. cbv zeta.
    do 2 eexists. split; [| split].
    + shim_run. reflexivity.
    + shim_run. reflexivity.
    + shim_run. unfold static_cast_long. now apply Hrej.
  - unfold cfapi_transfer_error at 1 2. cbv zeta.
    do 2 eexists. split; [| split].
    + shim_run. reflexivity.
    + now apply Hrej.
    + intros.
      destruct (fst (run h _ w)).
      now destruct (fst (run h' _ w')).
Qed.

(** C6.  On a platform whose CfRegisterSyncRoot with the UPDATE flag creates
    or updates in place, a Register that succeeded, repeated with the same
    arguments, succeeds again and leaves the root state of every path as the
    first call left it. *)
Theorem register_twice_is_register_once :
  forall (root_state : W -> wstring -> option (CF_SYNC_REGISTRATION * CF_SYNC_POLICIES)),
    registers_by_upsert h root_state ->
    forall (w : W) (sync_root_path display_name version : option c_string),
      let once := run h (cfapi_register_sync_root MultiByteToWideChar
                           sync_root_path display_name version) w in
      let twice := run h (cfapi_register_sync_root MultiByteToWideChar
                            sync_root_path display_name version) (snd once) in
      SUCCEEDED (fst once) = true ->
      SUCCEEDED (fst twice) = true /\
      forall q, root_state (snd twice) q = root_state (snd once) q.
Proof.
  intros root_state Hup w sync_root_path display_name version once twice.
  subst once twice. unfold cfapi_register_sync_root. cbv zeta.
  shim_run. unfold static_cast_long.
  set (path := Utf8ToWide MultiByteToWideChar sync_root_path).
  set (reg := {| ProviderName := _; ProviderVersion := _; ProviderId := _ |}).
  set (pol := {| Hydration_Primary := _; Hydration_Modifier := _;
                 Population_Primary := _; Population_Modifier := _;
                 InSync := _; HardLink := _ |}).
  intros Hok1.
  destruct (Hup path reg pol w) as (Hset1 & _).
  destruct (Hset1 Hok1) as (Hat1 & _).
  set (w1 := snd (h (CfRegisterSyncRoot path reg pol CF_REGISTER_FLAG_UPDATE) w)) in *.
  destruct (Hup path reg pol w1) as (Hset2 & Hre).
  assert (Hok2 : SUCCEEDED (fst (h (CfRegisterSyncRoot path reg pol
                                      CF_REGISTER_FLAG_UPDATE) w1)) = true).
  { apply Hre. exact Hat1. }
  split; [exact Hok2 |].
  destruct (Hset2 Hok2) as (Hat2 & Hother2).
  intros q. destruct (list_eq_dec Z.eq_dec q path) as [-> | Hne].
  - now rewrite Hat2, Hat1.
  - now apply Hother2.
Qed.

(** C1 (amended).  On a platform that stores what it is given, a
    CreatePlaceholder that succeeded, for an identity of fewer than 2^32
    bytes and a timestamp T whose FILETIME fits the signed 64-bit field, is
    read back with size S, with the identity cut at its first zero byte (its
    length is found by scanning for the terminator), hence byte-exact
    whenever the identity has no zero byte, and with four timestamps whose
    whole seconds are T. *)
Theorem create_roundtrip :
  forall (read : W -> wstring -> wstring -> option (list byte * CF_FS_METADATA)),
    stores_placeholders h read ->
    forall (w : W) (parent_path name : option c_string) (B : list byte)
           (S T is_directory : Z),
      Z.of_nat (List.length B) < 2 ^ 32 ->
      Int.in_s64 ((T + 11644473600) * 10000000) ->
      let r := run h (cfapi_create_placeholder MultiByteToWideChar
                        parent_path name B S T is_directory) w in
      SUCCEEDED (fst r) = true ->
      exists md,
        read (snd r) (Utf8ToWide MultiByteToWideChar parent_path)
                     (Utf8ToWide MultiByteToWideChar name)
          = Some (firstn (strlen B) B, md) /\
        (no_nul B -> firstn (strlen B) B = B) /\
        FileSize md = S /\
        whole_seconds (CreationTime (BasicInfo md)) = T /\
        whole_seconds (LastWriteTime (BasicInfo md)) = T /\
        whole_seconds (ChangeTime (BasicInfo md)) = T /\
        whole_seconds (LastAccessTime (BasicInfo md)) = T.
Proof.
  intros read Hstore w parent_path name B S T is_directory Hlen HT r.
  subst r. unfold cfapi_create_placeholder. cbv zeta.
  shim_run. unfold static_cast_long.
  match goal with
  | |- context [h (CfCreatePlaceholders ?b ?i ?f) w] =>
      set (base := b); set (info := i); set (flags := f);
      pose proof (Hstore base info flags w) as Hst
  end.
  cbv zeta in Hst.
  destruct (h (CfCreatePlaceholders base info flags) w) as [[hr res] w'].
  cbn [fst snd] in *.
  intros Hok.
  assert (Hboth : SUCCEEDED hr = true /\ SUCCEEDED res = true).
  { unfold SUCCEEDED, FAILED in *.
    destruct (Z.leb_spec 0 hr), (Z.ltb_spec res 0), (Z.leb_spec 0 res);
      cbn [andb] in Hok; try (split; reflexivity); try lia;
      destruct (Z.leb_spec 0 res); destruct (Z.leb_spec 0 hr); try lia;
      discriminate. }
  destruct Hboth as (Hhr & Hres).
  specialize (Hst Hhr Hres).
  exists (FsMetadata info). split; [| split].
  - subst base info. cbn [RelativeFileName FileIdentityLength FileIdentity] in Hst.
    rewrite Hst.
    unfold Int.u32, Int.wrap_u.
    rewrite Z.mod_small.
    + now rewrite Nat2Z.id.
    + pose proof (strlen_le B). lia.
  - intros Hnn. rewrite strlen_no_nul by assumption. apply firstn_all.
  - subst info.
    cbn [FsMetadata FileSize BasicInfo CreationTime LastWriteTime ChangeTime
           LastAccessTime].
    rewrite (filetime_field_exact T HT), whole_seconds_inverse.
    repeat split.
Qed.

End Properties.

(** ** The reference platform meets what is relied on *)

Lemma wstring_eqb_refl (a : wstring) : RefOS.wstring_eqb a a = true.
Proof.
  unfold RefOS.wstring_eqb. destruct (list_eq_dec Z.eq_dec a a); congruence.
Qed.

Lemma wstring_eqb_neq (a b : wstring) : a <> b -> RefOS.wstring_eqb a b = false.
Proof.
  unfold RefOS.wstring_eqb. destruct (list_eq_dec Z.eq_dec a b); congruence.
Qed.

Lemma lookup_remove_other {V : Type} (k q : wstring) (l : list (wstring * V)) :
  q <> k -> RefOS.lookup q (RefOS.remove_key k l) = RefOS.lookup q l.
Proof.
  intros Hne. induction l as [| [k' v] l IH]; simpl.
  - reflexivity.
  - unfold RefOS.wstring_eqb at 1.
    destruct (list_eq_dec Z.eq_dec k k') as [<- | Hk]; simpl.
    + rewrite (wstring_eqb_neq Hne). exact IH.
    + now rewrite IH.
Qed.

Lemma lookup_upsert_same {V : Type} (k : wstring) (v : V) (l : list (wstring * V)) :
  RefOS.lookup k (RefOS.upsert k v l) = Some v.
Proof.
  unfold RefOS.upsert. simpl. now rewrite wstring_eqb_refl.
Qed.

Lemma lookup_upsert_other {V : Type} (k q : wstring) (v : V) (l : list (wstring * V)) :
  q <> k -> RefOS.lookup q (RefOS.upsert k v l) = RefOS.lookup q l.
Proof.
  intros Hne. unfold RefOS.upsert. simpl.
  rewrite (wstring_eqb_neq Hne). now apply lookup_remove_other.
Qed.

Lemma refos_registers_by_upsert :
  registers_by_upsert RefOS.handle RefOS.root_state.
Proof.
  intros path reg pol w. cbv zeta.
  assert (E : RefOS.handle (CfRegisterSyncRoot path reg pol CF_REGISTER_FLAG_UPDATE) w
              = (S_OK, RefOS.set_roots (RefOS.upsert path (reg, pol) (RefOS.roots w)) w)).
  { simpl. now destruct (RefOS.lookup path (RefOS.roots w)). }
  rewrite E. cbn [fst snd]. unfold RefOS.root_state. cbn [RefOS.roots RefOS.set_roots].
  repeat split.
  - apply lookup_upsert_same.
  - intros q Hne. now apply lookup_upsert_other.
Qed.

Lemma refos_stores_placeholders :
  stores_placeholders RefOS.handle RefOS.read_placeholder.
Proof.
  intros base info flags w. cbv zeta. simpl.
  destruct (RefOS.lookup (RefOS.child base (RelativeFileName info)) (RefOS.files w)).
  - cbn [fst snd]. intros _ Hres. discriminate Hres.
  - cbn [fst snd]. intros _ _. unfold RefOS.read_placeholder.
    cbn [RefOS.files RefOS.set_files]. apply lookup_upsert_same.
Qed.

Lemma refos_rejects_stale_keys :
  rejects_stale_keys RefOS.handle RefOS.stale.
Proof.
  intros opInfo opParams w Hstale. unfold RefOS.stale in Hstale. simpl.
  now rewrite Hstale.
Qed.

(** ** Counterexamples and instances *)

(** C1, counterexample.  The blob "a\0b" of three bytes, created with
    success on the reference platform, is read back as the one byte "a". *)
Lemma identity_cut_at_nul :
  ~ spec_roundtrip_any_blob RefOS.ascii_to_wide blob_with_nul 1024 1700000000.
Proof.
  intros H.
  specialize (H _ RefOS.handle RefOS.read_placeholder refos_stores_placeholders
                RefOS.boot (Some text_sync_root) (Some text_a_txt) 0).
  cbv zeta in H.
  assert (Hok : SUCCEEDED
                  (fst (run RefOS.handle
                          (cfapi_create_placeholder RefOS.ascii_to_wide
                             (Some text_sync_root) (Some text_a_txt)
                             blob_with_nul 1024 1700000000 0) RefOS.boot)) = true)
    by (vm_compute; reflexivity).
  destruct (H Hok) as (md & Hread & _).
  vm_compute in Hread.
  injection Hread as Hid _. discriminate Hid.
Qed.

(** C1, witness: the scenario of the specification, file "a.txt" under
    "C:\sync" with identity "id-1", size 1024 and time 1700000000. *)
Lemma create_roundtrip_witness :
  let r := run RefOS.handle
             (cfapi_create_placeholder RefOS.ascii_to_wide
                (Some text_sync_root) (Some text_a_txt) text_id_1 1024 1700000000 0)
             RefOS.boot in
  Z.of_nat (List.length text_id_1) < 2 ^ 32 /\
  Int.in_s64 ((1700000000 + 11644473600) * 10000000) /\
  SUCCEEDED (fst r) = true /\
  exists md,
    RefOS.read_placeholder (snd r)
      (Utf8ToWide RefOS.ascii_to_wide (Some text_sync_root))
      (Utf8ToWide RefOS.ascii_to_wide (Some text_a_txt))
      = Some (firstn (strlen text_id_1) text_id_1, md) /\
    (no_nul text_id_1 -> firstn (strlen text_id_1) text_id_1 = text_id_1) /\
    FileSize md = 1024 /\
    whole_seconds (CreationTime (BasicInfo md)) = 1700000000 /\
    whole_seconds (LastWriteTime (BasicInfo md)) = 1700000000 /\
    whole_seconds (ChangeTime (BasicInfo md)) = 1700000000 /\
    whole_seconds (LastAccessTime (BasicInfo md)) = 1700000000.
Proof.
  cbv zeta.
  assert (Hlen : Z.of_nat (List.length text_id_1) < 2 ^ 32) by (vm_compute; reflexivity).
  assert (HT : Int.in_s64 ((1700000000 + 11644473600) * 10000000))
    by (vm_compute; split; [discriminate | reflexivity]).
  split; [exact Hlen |]. split; [exact HT |]. split; [reflexivity |].
  exact (@create_roundtrip RefOS.ascii_to_wide _ RefOS.handle
           RefOS.read_placeholder refos_stores_placeholders RefOS.boot
           (Some text_sync_root) (Some text_a_txt) text_id_1 1024 1700000000 0
           Hlen HT eq_refl).
Defined.

(** C2, counterexample.  No reading of what Fail returns tells a stale key
    from an accepted operation: on the reference platform Fail returns the
    same value with key 1 stale and with key 1 live. *)
Lemma transfer_error_reports_nothing : ~ spec_fail_reports_stale_key.
Proof.
  intros (is_error & H).
  destruct (H _ RefOS.handle RefOS.stale refos_rejects_stale_keys
              RefOS.boot 1 9 0 (-1)) as (Hstale & _).
  destruct (H _ RefOS.handle RefOS.stale refos_rejects_stale_keys
              world_connected 1 9 0 (-1)) as (_ & Hlive).
  assert (Htrue : is_error tt = true).
  { specialize (Hstale eq_refl).
    now destruct (fst (run RefOS.handle (cfapi_transfer_error 1 9 0 (-1)) RefOS.boot)). }
  assert (Hfalse : is_error tt = false).
  { assert (Hacc : forall opInfo opParams,
               ConnectionKey opInfo = 1 ->
               SUCCEEDED (fst (RefOS.handle (CfExecute opInfo opParams) world_connected))
               = true).
    { intros opInfo opParams Hkey. simpl. rewrite Hkey. reflexivity. }
    specialize (Hlive Hacc).
    now destruct (fst (run RefOS.handle (cfapi_transfer_error 1 9 0 (-1))
                         world_connected)). }
  congruence.
Qed.

(** C2, witness: connection key 1 on the freshly booted reference platform,
    where no connection is live. *)
Lemma stale_key_transfer_witness :
  RefOS.stale RefOS.boot 1 /\
  FAILED (fst (run RefOS.handle (cfapi_transfer_data 1 9 (Some [x41]) 0 1) RefOS.boot))
    = true /\
  exists opInfo opParams,
    calls RefOS.handle (cfapi_transfer_error 1 9 0 (-1)) RefOS.boot
      = [CfExecute opInfo opParams] /\
    FAILED (fst (RefOS.handle (CfExecute opInfo opParams) RefOS.boot)) = true.
Proof.
  assert (Hstale : RefOS.stale RefOS.boot 1) by reflexivity.
  split; [exact Hstale |].
  destruct (@stale_key_transfer _ RefOS.handle RefOS.stale refos_rejects_stale_keys
              RefOS.boot 1 9 (Some [x41]) 0 1 (-1) Hstale)
    as ((opInfo & opParams & _ & _ & Hfailed) & (opInfo' & opParams' & Hcalls & Hrej & _)).
  split; [exact Hfailed |].
  exists opInfo', opParams'. split; [exact Hcalls | exact Hrej].
Defined.

(** C3, counterexample.  For the Unix time 2_000_000_000_000 the product
    (T + 11644473600) * 10_000_000 is 20116444736000000000, beyond 64 bits;
    the creation-time field holds 1669700662290448384. *)
Lemma timestamps_wrap_beyond_64_bits :
  ~ spec_timestamps_any_time RefOS.ascii_to_wide 2000000000000.
Proof.
  intros H.
  destruct (H _ RefOS.handle RefOS.boot None None [] 0 0)
    as (base & info & flags & Hcalls & Hcreation & _).
  vm_compute in Hcalls.
  injection Hcalls as _ Hinfo _. subst info.
  vm_compute in Hcreation. discriminate Hcreation.
Qed.

(** C3, witness: the Unix time 1700000000. *)
Lemma create_timestamps_witness :
  Int.in_s64 ((1700000000 + 11644473600) * 10000000) /\
  exists base info flags,
    calls RefOS.handle
      (cfapi_create_placeholder RefOS.ascii_to_wide
         (Some text_sync_root) (Some text_a_txt) text_id_1 1024 1700000000 0)
      RefOS.boot
      = [CfCreatePlaceholders base info flags] /\
    CreationTime (BasicInfo (FsMetadata info)) = 133444736000000000 /\
    LastWriteTime (BasicInfo (FsMetadata info)) = 133444736000000000 /\
    ChangeTime (BasicInfo (FsMetadata info)) = 133444736000000000 /\
    LastAccessTime (BasicInfo (FsMetadata info)) = 133444736000000000.
Proof.
  assert (HT : Int.in_s64 ((1700000000 + 11644473600) * 10000000))
    by (vm_compute; split; [discriminate | reflexivity]).
  split; [exact HT |].
  destruct (@create_timestamps RefOS.ascii_to_wide _ RefOS.handle RefOS.boot
              (Some text_sync_root) (Some text_a_txt) text_id_1 1024 1700000000 0)
    as (base & info & flags & Hcalls & Hc & Hw & Hch & Ha & Hexact).
  exists base, info, flags.
  specialize (Hexact HT).
  rewrite Hw, Hch, Ha, Hexact.
  repeat split. exact Hcalls.
Defined.

(** C4, counterexample.  On a thread whose apartment is already
    single-threaded the platform answers CoInitializeEx with the failure
    RPC_E_CHANGED_MODE, and init returns 0. *)
Lemma init_swallows_changed_mode : ~ spec_init_status_verbatim.
Proof.
  intros H.
  specialize (H _ RefOS.handle world_sta).
  cbv zeta in H.
  assert (Hfailed : FAILED (fst (RefOS.handle (CoInitializeEx COINIT_MULTITHREADED)
                                   world_sta)) = true) by reflexivity.
  specialize (H Hfailed).
  vm_compute in H. discriminate H.
Qed.

(** C9, witness: a Fail with the code E_FAIL (0x80004005, as a signed
    32-bit value -2147467259) at offset 0 on connection 1, transfer 9. *)
Lemma transfer_completion_records_witness :
  -2147467259 <> 0 /\
  exists opInfo opParams,
    calls RefOS.handle (cfapi_transfer_error 1 9 0 (-2147467259)) world_connected
      = [CfExecute opInfo opParams] /\
    ConnectionKey opInfo = 1 /\
    TransferKey opInfo = 9 /\
    CompletionStatus opParams <> 0 /\
    CompletionStatus opParams = -2147467259 /\
    Buffer opParams = None /\
    Offset opParams = 0 /\
    Length opParams = 0.
Proof.
  assert (Hcode : -2147467259 <> 0) by discriminate.
  split; [exact Hcode |].
  destruct (proj1 (@transfer_completion_records _ RefOS.handle world_connected
                     1 9 None 0 0 (-2147467259)) Hcode)
    as (opInfo & opParams & Hcalls & _ & Hck & Htk & Hnz & Hst & Hbuf & Hoff & Hlen).
  exists opInfo, opParams.
  repeat split; assumption.
Defined.

(** C6, witness: registering "C:\sync" twice on the freshly booted
    reference platform. *)
Lemma register_twice_witness :
  let once := run RefOS.handle
                (cfapi_register_sync_root RefOS.ascii_to_wide
                   (Some text_sync_root) (Some text_provider) (Some text_version))
                RefOS.boot in
  let twice := run RefOS.handle
                 (cfapi_register_sync_root RefOS.ascii_to_wide
                    (Some text_sync_root) (Some text_provider) (Some text_version))
                 (snd once) in
  SUCCEEDED (fst once) = true /\
  SUCCEEDED (fst twice) = true /\
  forall q, RefOS.root_state (snd twice) q = RefOS.root_state (snd once) q.
Proof.
  cbv zeta.
  assert (Hok : SUCCEEDED
                  (fst (run RefOS.handle
                          (cfapi_register_sync_root RefOS.ascii_to_wide
                             (Some text_sync_root) (Some text_provider)
                             (Some text_version)) RefOS.boot)) = true)
    by reflexivity.
  split; [exact Hok |].
  exact (@register_twice_is_register_once RefOS.ascii_to_wide _ RefOS.handle
           RefOS.root_state refos_registers_by_upsert RefOS.boot
           (Some text_sync_root) (Some text_provider) (Some text_version) Hok).
Defined.

(** ** The hydration callbacks

    What the source's side of a FetchData callback does: one call of the
    engine's entry point, with the identity pointer as received (its length
    read as a 32-bit signed integer), the required offset and length, and
    the transfer key.  CancelFetchData calls nothing. *)

Lemma fetch_data_dispatches_once {W : Type} (h : platform W) (w : W)
    (info : CF_CALLBACK_INFO) (params : CF_CALLBACK_PARAMETERS) :
  calls h (invoke_callback FetchDataCallback_fn info params) w
  = [goHydrationCallback (cb_FileIdentity info)
       (Int.s32 (cb_FileIdentityLength info))
       (RequiredFileOffset params) (RequiredLength params)
       (cb_TransferKey info)].
Proof.
  unfold invoke_callback, FetchDataCallback. cbv zeta. apply calls_call.
Qed.

Lemma cancel_fetch_data_is_silent {W : Type} (h : platform W) (w : W)
    (info : CF_CALLBACK_INFO) (params : CF_CALLBACK_PARAMETERS) :
  calls h (invoke_callback CancelFetchDataCallback_fn info params) w = [] /\
  run h (invoke_callback CancelFetchDataCallback_fn info params) w = (tt, w).
Proof.
  split; reflexivity.
Qed.

(** ** Further properties of the time codec *)

Lemma s64_in_range (x : Z) : Int.in_s64 (Int.s64 x).
Proof.
  unfold Int.in_s64, Int.s64, Int.wrap_s.
  change (2 ^ 64) with 18446744073709551616.
  change (2 ^ (64 - 1)) with 9223372036854775808.
  change (2 ^ 63) with 9223372036854775808.
  pose proof (Z.mod_pos_bound x 18446744073709551616 ltac:(lia)).
  destruct (Z.ltb_spec (x mod 18446744073709551616) 9223372036854775808); lia.
Qed.

Lemma exact_range_in_s64 (T : Z) :
  exact_range T <-> Int.in_s64 ((T + 11644473600) * 10000000).
Proof.
  unfold exact_range, Int.in_s64.
  change (2 ^ 63) with 9223372036854775808. lia.
Qed.

Lemma filetime_exact_of_range (T : Z) :
  exact_range T ->
  reinterpret_LONGLONG (UnixToFileTime T) = (T + 11644473600) * 10000000.
Proof.
  intros H. apply filetime_field_exact. now apply exact_range_in_s64.
Qed.

(** X1.  The two halves of the FILETIME built from any input are 32-bit
    unsigned values, and together they are the low 64 bits of
    (unixTime + 11644473600) * 10000000. *)
Theorem filetime_halves_are_dwords :
  forall T : Z,
    0 <= dwLowDateTime (UnixToFileTime T) < 2 ^ 32 /\
    0 <= dwHighDateTime (UnixToFileTime T) < 2 ^ 32 /\
    dwLowDateTime (UnixToFileTime T) + 2 ^ 32 * dwHighDateTime (UnixToFileTime T)
      = ((T + 11644473600) * 10000000) mod 2 ^ 64.
Proof.
  intros T. unfold UnixToFileTime. cbv zeta.
  cbn [dwLowDateTime dwHighDateTime].
  rewrite u64_formula. unfold Int.u64, Int.wrap_u.
  set (q := ((T + 11644473600) * 10000000) mod 2 ^ 64).
  assert (Hq : 0 <= q < 2 ^ 64) by (apply Z.mod_pos_bound; now compute).
  change 0xFFFFFFFF with (Z.ones 32).
  rewrite Z.land_ones by lia.
  rewrite Z.shiftr_div_pow2 by lia.
  change (2 ^ 64) with (2 ^ 32 * 2 ^ 32) in Hq.
  pose proof (Z.mod_pos_bound q (2 ^ 32) ltac:(now compute)) as Hlo.
  assert (Hhi : 0 <= q / 2 ^ 32 < 2 ^ 32).
  { split.
    - apply Z.div_pos; [lia | now compute].
    - apply Z.div_lt_upper_bound; [now compute | lia]. }
  repeat split; try lia.
  rewrite (Z.div_mod q (2 ^ 32)) at 3 by (now compute). lia.
Qed.

(** X2.  The timestamp field built from a Unix time T holds
    (T + 11644473600) * 10000000 exactly when T lies between -933981677285
    and 910692730085; outside that interval the field holds another
    value. *)
Theorem filetime_exact_iff_in_range :
  forall T : Z,
    reinterpret_LONGLONG (UnixToFileTime T) = (T + 11644473600) * 10000000
    <-> exact_range T.
Proof.
  intros T. rewrite exact_range_in_s64. split.
  - intros E. rewrite <- E. rewrite filetime_field. apply s64_in_range.
  - apply filetime_field_exact.
Qed.

(** X3.  On the interval where the conversion is exact it keeps order and
    distance: a later Unix time gives a strictly later timestamp, and the
    timestamps differ by the difference in seconds times 10^7. *)
Theorem filetime_monotone :
  forall T1 T2 : Z,
    exact_range T1 -> exact_range T2 -> T1 < T2 ->
    reinterpret_LONGLONG (UnixToFileTime T1) < reinterpret_LONGLONG (UnixToFileTime T2)
    /\ reinterpret_LONGLONG (UnixToFileTime T2) - reinterpret_LONGLONG (UnixToFileTime T1)
       = (T2 - T1) * 10000000.
Proof.
  intros T1 T2 H1 H2 Hlt.
  rewrite (filetime_exact_of_range H1), (filetime_exact_of_range H2). lia.
Qed.

(** X4.  On that interval the timestamp is a whole number of seconds (a
    multiple of 10^7 units of 100 ns), and dividing it by 10^7 and taking
    off the epoch difference gives the Unix time back. *)
Theorem filetime_whole_seconds :
  forall T : Z,
    exact_range T ->
    reinterpret_LONGLONG (UnixToFileTime T) mod 10000000 = 0 /\
    whole_seconds (reinterpret_LONGLONG (UnixToFileTime T)) = T.
Proof.
  intros T H.
  rewrite (filetime_exact_of_range H). split.
  - apply Z.mod_mul. lia.
  - apply whole_seconds_inverse.
Qed.

(** ** Further properties of the shim *)

Lemma strlen_prefix_no_nul (s : c_string) : no_nul (firstn (strlen s) s).
Proof.
  unfold no_nul. induction s as [| b s IH]; simpl.
  - tauto.
  - destruct (Byte.eqb b x00) eqn:E; simpl.
    + tauto.
    + intros [H | H].
      * subst b. discriminate E.
      * now apply IH.
Qed.

Lemma no_nul_firstn (n : nat) (l : list byte) : no_nul l -> no_nul (firstn n l).
Proof.
  unfold no_nul. intros H Hin. apply H.
  rewrite <- (firstn_skipn n l). apply in_or_app. now left.
Qed.

Lemma u32_le (x : Z) : 0 <= x -> 0 <= Int.u32 x <= x /\ Int.u32 x < 2 ^ 32.
Proof.
  intros Hx. unfold Int.u32, Int.wrap_u.
  pose proof (Z.mod_pos_bound x (2 ^ 32) ltac:(now compute)).
  pose proof (Z.mod_le x (2 ^ 32) Hx ltac:(now compute)).
  lia.
Qed.

Lemma u32_id (x : Z) : 0 <= x < 2 ^ 32 -> Int.u32 x = x.
Proof.
  intros Hx. unfold Int.u32, Int.wrap_u. now apply Z.mod_small.
Qed.

Lemma s32_id (x : Z) : 0 <= x < 2 ^ 31 -> Int.s32 x = x.
Proof.
  intros Hx. unfold Int.s32, Int.wrap_s.
  change (2 ^ 32) with 4294967296. change (2 ^ (32 - 1)) with 2147483648.
  change (2 ^ 31) with 2147483648 in Hx.
  rewrite Z.mod_small by lia.
  destruct (Z.ltb_spec x 2147483648); lia.
Qed.

Lemma s32_high (x : Z) : 2 ^ 31 <= x < 2 ^ 32 -> Int.s32 x = x - 2 ^ 32.
Proof.
  intros Hx. unfold Int.s32, Int.wrap_s.
  change (2 ^ 32) with 4294967296 in *. change (2 ^ (32 - 1)) with 2147483648.
  change (2 ^ 31) with 2147483648 in Hx.
  rewrite Z.mod_small by lia.
  destruct (Z.ltb_spec x 2147483648); lia.
Qed.

(* The identity the platform reads from a (pointer, length) pair. *)
Lemma identity_prefix (B : c_string) :
  firstn (Z.to_nat (Int.u32 (Z.of_nat (strlen B)))) B
  = firstn (Z.to_nat (Int.u32 (Z.of_nat (strlen B)))) (firstn (strlen B) B).
Proof.
  destruct (@u32_le (Z.of_nat (strlen B)) ltac:(lia)) as (Hle & _).
  rewrite firstn_firstn. f_equal. lia.
Qed.

(* Bits that do not overlap add up. *)
Lemma lor_shiftl_add (a b n : Z) :
  0 <= n -> 0 <= a < 2 ^ n -> Z.lor a (Z.shiftl b n) = a + b * 2 ^ n.
Proof.
  intros Hn Ha.
  assert (Hdisj : Z.land a (Z.shiftl b n) = 0).
  { apply Z.bits_inj'. intros i Hi.
    rewrite Z.land_spec, Z.bits_0.
    destruct (Z_lt_le_dec i n) as [Hlo | Hhi].
    - rewrite Z.shiftl_spec_low by lia. apply andb_false_r.
    - rewrite <- (Z.mod_small a (2 ^ n)) by lia.
      rewrite Z.mod_pow2_bits_high by lia. reflexivity. }
  rewrite <- Z.lxor_lor by exact Hdisj.
  rewrite <- Z.add_nocarry_lxor by exact Hdisj.
  now rewrite Z.shiftl_mul_pow2 by lia.
Qed.

(* HRESULT_FROM_WIN32 on the three kinds of DWORD. *)
Lemma HRESULT_FROM_WIN32_cases (e : Z) :
  0 <= e < 2 ^ 32 ->
  HRESULT_FROM_WIN32 e
  = if e =? 0 then 0
    else if e <? 2 ^ 31 then e mod 65536 - 2147024896
    else e - 2 ^ 32.
Proof.
  intros He. unfold HRESULT_FROM_WIN32.
  destruct (Z.eqb_spec e 0) as [-> | Hnz]; [reflexivity |].
  destruct (Z.ltb_spec e (2 ^ 31)) as [Hlo | Hhi].
  - rewrite (s32_id (x := e)) by lia.
    destruct (Z.leb_spec e 0); [lia |].
    change 0x0000FFFF with (Z.ones 16). rewrite Z.land_ones by lia.
    change (2 ^ 16) with 65536.
    pose proof (Z.mod_pos_bound e 65536 ltac:(lia)) as Hm.
    change (Z.shiftl FACILITY_WIN32 16) with (Z.shiftl 7 16).
    rewrite (@lor_shiftl_add (e mod 65536) 7 16) by (change (2 ^ 16) with 65536; lia).
    change 0x80000000 with (Z.shiftl 1 31).
    rewrite (@lor_shiftl_add (e mod 65536 + 7 * 2 ^ 16) 1 31)
      by (change (2 ^ 16) with 65536; change (2 ^ 31) with 2147483648; lia).
    rewrite s32_high.
    + change (2 ^ 16) with 65536. change (2 ^ 31) with 2147483648.
      change (2 ^ 32) with 4294967296. lia.
    + change (2 ^ 16) with 65536. change (2 ^ 31) with 2147483648.
      change (2 ^ 32) with 4294967296. lia.
  - rewrite (s32_high (x := e)) by lia.
    change (2 ^ 32) with 4294967296 in *.
    destruct (Z.leb_spec (e - 4294967296) 0); [reflexivity | lia].
Qed.

Lemma handles_ok_bind_call {W R : Type} (h : platform W) (c : os_call)
    (f : os_ret c -> Prog R) (w : W) (held : list HANDLE) :
  handles_ok h (bind (call c) f) w held
  = match uses_handle c with
    | Some hd => existsb (Z.eqb hd) held
    | None => true
    end
    && handles_ok h (f (fst (h c w))) (snd (h c w)) (track_handle c (fst (h c w)) held).
Proof.
  unfold call. simpl. now destruct (h c w).
Qed.

Section Coverage.

Variable MultiByteToWideChar : c_string -> list WCHAR.

Variable W : Type.
Variable h : platform W.

(** X5.  Whatever blob is passed, the identity a CreatePlaceholder submits
    (the FileIdentityLength bytes at FileIdentity) is a prefix of the blob
    that contains no zero byte; its length fits 32 bits and is at most the
    bytes before the blob's first zero byte. *)
Theorem create_identity_is_nul_free_prefix :
  forall (w : W) (parent_path name : option c_string) (B : c_string)
         (file_size mtime_unix is_directory : Z),
  exists base info flags,
    calls h (cfapi_create_placeholder MultiByteToWideChar
               parent_path name B file_size mtime_unix is_directory) w
      = [CfCreatePlaceholders base info flags] /\
    no_nul (firstn (Z.to_nat (FileIdentityLength info)) (FileIdentity info)) /\
    (exists rest,
       B = firstn (Z.to_nat (FileIdentityLength info)) (FileIdentity info) ++ rest) /\
    0 <= FileIdentityLength info < 2 ^ 32 /\
    FileIdentityLength info <= Z.of_nat (strlen B) /\
    FileIdentityLength info <= Z.of_nat (List.length B).
Proof.
  intros w parent_path name B file_size mtime_unix is_directory.
  unfold cfapi_create_placeholder. cbv zeta.
  do 3 eexists. split.
  - shim_run. reflexivity.
  - cbn [FileIdentityLength FileIdentity].
    destruct (@u32_le (Z.of_nat (strlen B)) ltac:(lia)) as (Hle & Hlt).
    pose proof (strlen_le B) as Hsl.
    repeat split; try lia.
    + rewrite identity_prefix. apply no_nul_firstn, strlen_prefix_no_nul.
    + eexists. symmetry. apply firstn_skipn.
Qed.

(** X7.  CreatePlaceholder returns a success status exactly when the
    CfCreatePlaceholders call and the entry's Result both succeeded; the
    status it returns is always one of those two. *)
Theorem create_succeeds_iff_call_and_entry :
  forall (w : W) (parent_path name : option c_string) (file_identity : c_string)
         (file_size mtime_unix is_directory : Z),
  exists base info flags,
    calls h (cfapi_create_placeholder MultiByteToWideChar
               parent_path name file_identity file_size mtime_unix is_directory) w
      = [CfCreatePlaceholders base info flags] /\
    let answer := fst (h (CfCreatePlaceholders base info flags) w) in
    let status := fst (run h (cfapi_create_placeholder MultiByteToWideChar
                                parent_path name file_identity file_size
                                mtime_unix is_directory) w) in
    SUCCEEDED status = SUCCEEDED (fst answer) && SUCCEEDED (snd answer) /\
    (status = fst answer \/ status = snd answer).
Proof.
  intros w parent_path name file_identity file_size mtime_unix is_directory.
  unfold cfapi_create_placeholder. cbv zeta.
  do 3 eexists. split.
  - shim_run. reflexivity.
  - shim_run. unfold static_cast_long.
    match goal with
    | |- context [h (CfCreatePlaceholders ?b ?i ?f) w] =>
        destruct (h (CfCreatePlaceholders b i f) w) as [[hr res] w']
    end.
    cbn [fst snd]. unfold SUCCEEDED, FAILED.
    destruct (Z.leb_spec 0 hr), (Z.ltb_spec res 0); cbn [andb];
      destruct (Z.leb_spec 0 res); try lia; auto.
Qed.

(** X8.  cfapi_init returns 0 or a negative status, never a positive one;
    it returns 0 exactly when the platform's answer is a success code (S_OK,
    S_FALSE, ...) or RPC_E_CHANGED_MODE, and otherwise the platform's
    answer. *)
Theorem init_status_characterised :
  forall (w : W),
    let answer := fst (h (CoInitializeEx COINIT_MULTITHREADED) w) in
    let status := fst (run h cfapi_init w) in
    status <= 0 /\
    (status =? 0) = SUCCEEDED answer || (answer =? RPC_E_CHANGED_MODE) /\
    (status = 0 \/ status = answer).
Proof.
  intros w. cbv zeta. unfold cfapi_init. shim_run.
  destruct (h (CoInitializeEx COINIT_MULTITHREADED) w) as [hr w'].
  cbn [fst snd]. unfold static_cast_long, FAILED, SUCCEEDED.
  destruct (Z.ltb_spec hr 0) as [Hneg | Hpos]; cbn [andb].
  - destruct (Z.eqb_spec hr RPC_E_CHANGED_MODE) as [E | E]; cbn [negb run fst].
    + destruct (Z.leb_spec 0 hr); [lia |]. cbn. repeat split; auto; lia.
    + destruct (Z.leb_spec 0 hr); [lia |].
      destruct (Z.eqb_spec hr 0); [lia |]. cbn. repeat split; auto; lia.
  - cbn [run fst]. destruct (Z.leb_spec 0 hr); [| lia].
    cbn. repeat split; auto; lia.
Qed.

(** X9.  UpdatePlaceholder and Dehydrate keep their file handle in order on
    every platform: the placeholder call and CloseHandle are only given the
    handle that CreateFileW just returned as valid, it is closed once, and
    no handle is left open on return, whether the open or the placeholder
    call succeeded or failed. *)
Theorem update_and_dehydrate_leak_no_handle :
  forall (w : W) (file_path : option c_string) (file_identity : c_string)
         (file_size mtime_unix : Z),
    handles_ok h (cfapi_update_placeholder MultiByteToWideChar
                    file_path file_identity file_size mtime_unix) w [] = true /\
    handles_ok h (cfapi_dehydrate_placeholder MultiByteToWideChar file_path) w []
      = true.
Proof.
  intros w file_path file_identity file_size mtime_unix.
  assert (Hrem : forall x, List.remove Z.eq_dec x [x] = []).
  { intros x. simpl. destruct (Z.eq_dec x x); congruence. }
  split.
  - unfold cfapi_update_placeholder. cbv zeta.
    rewrite handles_ok_bind_call. cbn [uses_handle andb track_handle].
    destruct (fst (h (CreateFileW _ _ _ _ _) w) =? INVALID_HANDLE_VALUE) eqn:E.
    + rewrite handles_ok_bind_call. reflexivity.
    + rewrite handles_ok_bind_call. cbn [uses_handle track_handle existsb].
      rewrite Z.eqb_refl. cbn [orb andb].
      rewrite handles_ok_bind_call. cbn [uses_handle track_handle existsb].
      rewrite Z.eqb_refl, Hrem. reflexivity.
  - unfold cfapi_dehydrate_placeholder. cbv zeta.
    rewrite handles_ok_bind_call. cbn [uses_handle andb track_handle].
    destruct (fst (h (CreateFileW _ _ _ _ _) w) =? INVALID_HANDLE_VALUE) eqn:E.
    + rewrite handles_ok_bind_call. reflexivity.
    + rewrite handles_ok_bind_call. cbn [uses_handle track_handle existsb].
      rewrite Z.eqb_refl. cbn [orb andb].
      rewrite handles_ok_bind_call. cbn [uses_handle track_handle existsb].
      rewrite Z.eqb_refl, Hrem. reflexivity.
Qed.

(** X10.  When the file cannot be opened, UpdatePlaceholder and Dehydrate
    return the same status, made from the thread's last error e: a failure
    HRESULT e mod 65536 - 2147024896 (facility 7, code in the low 16 bits)
    for 0 < e < 2^31, e itself read as a negative HRESULT for e >= 2^31,
    and 0, a success status, when the last error is 0. *)
Theorem open_failure_status :
  forall (w : W) (file_path : option c_string) (file_identity : c_string)
         (file_size mtime_unix : Z),
    let opened := h (CreateFileW (Utf8ToWide MultiByteToWideChar file_path)
                       WRITE_DAC FILE_SHARE_READ OPEN_EXISTING
                       FILE_FLAG_BACKUP_SEMANTICS) w in
    let e := fst (h GetLastError (snd opened)) in
    let status := fst (run h (cfapi_update_placeholder MultiByteToWideChar
                                file_path file_identity file_size mtime_unix) w) in
    fst opened = INVALID_HANDLE_VALUE ->
    0 <= e < 2 ^ 32 ->
    status = fst (run h (cfapi_dehydrate_placeholder MultiByteToWideChar file_path) w) /\
    status = (if e =? 0 then 0
              else if e <? 2 ^ 31 then e mod 65536 - 2147024896
              else e - 2 ^ 32) /\
    FAILED status = negb (e =? 0).
Proof.
  intros w file_path file_identity file_size mtime_unix opened e status Hinv He.
  subst status e opened.
  unfold cfapi_update_placeholder, cfapi_dehydrate_placeholder. cbv zeta.
  shim_run. rewrite Hinv. rewrite Z.eqb_refl. shim_run.
  unfold static_cast_long.
  set (e := fst (h GetLastError _)) in *.
  split; [reflexivity |].
  rewrite (HRESULT_FROM_WIN32_cases He).
  split; [reflexivity |].
  unfold FAILED.
  destruct (Z.eqb_spec e 0) as [E0 | E0]; [reflexivity |].
  pose proof (Z.mod_pos_bound e 65536 ltac:(lia)).
  change (2 ^ 32) with 4294967296 in *. change (2 ^ 31) with 2147483648.
  destruct (Z.ltb_spec e 2147483648); cbn [negb]; apply Z.ltb_lt; lia.
Qed.

(** X16.  Dehydrate opens the file with OPEN_EXISTING (it never creates
    one) and, when the handle is valid, asks for the eviction of the whole
    file, offset 0 and length -1, on that handle and then closes it; when
    the open fails it makes no placeholder call and only reads the last
    error. *)
Theorem dehydrate_evicts_whole_file :
  forall (w : W) (file_path : option c_string),
    let open := CreateFileW (Utf8ToWide MultiByteToWideChar file_path)
                  0x00040000 0x00000001 OPEN_EXISTING 0x02000000 in
    let hFile := fst (h open w) in
    calls h (cfapi_dehydrate_placeholder MultiByteToWideChar file_path) w
    = if hFile =? -1
      then [open; GetLastError]
      else [open; CfDehydratePlaceholder hFile 0 (-1) 0; CloseHandle hFile].
Proof.
  intros w file_path open hFile. subst hFile open.
  unfold cfapi_dehydrate_placeholder. cbv zeta. shim_run.
  change INVALID_HANDLE_VALUE with (-1).
  destruct (fst (h (CreateFileW _ _ _ _ _) w) =? -1) eqn:E;
    shim_run; reflexivity.
Qed.

(** X6.  UpdatePlaceholder encodes an identity as CreatePlaceholder does:
    for the same blob, the identity pointer and length of every
    CfUpdatePlaceholder call are those of the created entry. *)
Theorem update_identity_matches_create :
  forall (w w2 : W) (parent_path name file_path : option c_string) (B : c_string)
         (file_size mtime_unix is_directory file_size2 mtime_unix2 : Z),
  exists base info flags,
    calls h (cfapi_create_placeholder MultiByteToWideChar
               parent_path name B file_size mtime_unix is_directory) w
      = [CfCreatePlaceholders base info flags] /\
    Forall (fun c =>
              match c with
              | CfUpdatePlaceholder _ _ identity len _ =>
                  identity = FileIdentity info /\ len = FileIdentityLength info
              | _ => True
              end)
           (calls h (cfapi_update_placeholder MultiByteToWideChar
                       file_path B file_size2 mtime_unix2) w2) /\
    if fst (h (CreateFileW (Utf8ToWide MultiByteToWideChar file_path)
                 WRITE_DAC FILE_SHARE_READ OPEN_EXISTING FILE_FLAG_BACKUP_SEMANTICS) w2)
       =? INVALID_HANDLE_VALUE
    then True
    else
      exists hFile md uflags,
        In (CfUpdatePlaceholder hFile md (FileIdentity info) (FileIdentityLength info)
              uflags)
           (calls h (cfapi_update_placeholder MultiByteToWideChar
                       file_path B file_size2 mtime_unix2) w2).
Proof.
  intros. unfold cfapi_create_placeholder, cfapi_update_placeholder. cbv zeta.
  do 3 eexists. split; [shim_run; reflexivity |].
  cbn [FileIdentity FileIdentityLength].
  destruct (fst (h (CreateFileW _ _ _ _ _) w2) =? INVALID_HANDLE_VALUE) eqn:E.
  - split.
    + shim_run. rewrite E. shim_run. repeat constructor.
    + exact I.
  - split.
    + shim_run. rewrite E. shim_run. repeat constructor.
    + do 3 eexists. shim_run. rewrite E. shim_run.
      right. left. reflexivity.
Qed.

(** X11.  Connect issues one CfConnectSyncRoot call with the flags
    REQUIRE_PROCESS_INFO and REQUIRE_FULL_FILE_PATH and no other, and hands
    the caller the connection key the platform left, whatever the status.
    The callback table it installs has one entry per callback type: the
    FETCH_DATA entry, when invoked, makes one call of the engine's entry point
    with the request's identity, range and transfer key, and the
    CANCEL_FETCH_DATA entry makes no call at all. *)
Theorem connect_installs_callbacks :
  forall (w : W) (sync_root_path : option c_string),
  exists path table flags,
    calls h (cfapi_connect_sync_root MultiByteToWideChar sync_root_path) w
      = [CfConnectSyncRoot path table flags] /\
    snd (fst (run h (cfapi_connect_sync_root MultiByteToWideChar sync_root_path) w))
      = snd (fst (h (CfConnectSyncRoot path table flags) w)) /\
    flags = 6 /\
    Z.land flags CF_CONNECT_FLAG_REQUIRE_PROCESS_INFO
      = CF_CONNECT_FLAG_REQUIRE_PROCESS_INFO /\
    Z.land flags CF_CONNECT_FLAG_REQUIRE_FULL_FILE_PATH
      = CF_CONNECT_FLAG_REQUIRE_FULL_FILE_PATH /\
    map fst table = [CF_CALLBACK_TYPE_FETCH_DATA; CF_CALLBACK_TYPE_CANCEL_FETCH_DATA] /\
    Forall (fun entry =>
              forall (w' : W) info params,
                calls h (invoke_callback (snd entry) info params) w'
                = match fst entry with
                  | CF_CALLBACK_TYPE_FETCH_DATA =>
                      [goHydrationCallback (cb_FileIdentity info)
                         (Int.s32 (cb_FileIdentityLength info))
                         (RequiredFileOffset params) (RequiredLength params)
                         (cb_TransferKey info)]
                  | CF_CALLBACK_TYPE_CANCEL_FETCH_DATA => []
                  end)
           table.
Proof.
  intros w sync_root_path. unfold cfapi_connect_sync_root. cbv zeta.
  do 3 eexists. split; [shim_run; reflexivity |].
  split; [shim_run; reflexivity |].
  repeat split.
  unfold s_callbackTable. repeat constructor; intros w' info params; cbn [fst snd].
  unfold invoke_callback, FetchDataCallback. cbv zeta. apply calls_call.
Qed.

(** X12.  The FetchData callback reads the identity length, a 32-bit
    unsigned value, as a 32-bit signed integer before handing it to the
    engine: a length below 2^31 arrives unchanged, a length from 2^31 up
    arrives as the negative number length - 2^32. *)
Theorem fetch_data_identity_length :
  forall (w : W) (info : CF_CALLBACK_INFO) (params : CF_CALLBACK_PARAMETERS),
    0 <= cb_FileIdentityLength info < 2 ^ 32 ->
    exists len,
      calls h (FetchDataCallback info params) w
        = [goHydrationCallback (cb_FileIdentity info) len
             (RequiredFileOffset params) (RequiredLength params)
             (cb_TransferKey info)] /\
      len = (if cb_FileIdentityLength info <? 2 ^ 31
             then cb_FileIdentityLength info
             else cb_FileIdentityLength info - 2 ^ 32) /\
      (len <? 0) = (2 ^ 31 <=? cb_FileIdentityLength info).
Proof.
  intros w info params Hlen.
  unfold FetchDataCallback. cbv zeta.
  eexists. split; [apply calls_call |].
  destruct (Z.ltb_spec (cb_FileIdentityLength info) (2 ^ 31)) as [Hlo | Hhi].
  - rewrite s32_id by lia. split; [reflexivity |].
    destruct (Z.ltb_spec (cb_FileIdentityLength info) 0),
             (Z.leb_spec (2 ^ 31) (cb_FileIdentityLength info)); lia.
  - rewrite s32_high by lia. split; [reflexivity |].
    change (2 ^ 32) with 4294967296 in *. change (2 ^ 31) with 2147483648 in *.
    destruct (Z.ltb_spec (cb_FileIdentityLength info - 4294967296) 0),
             (Z.leb_spec 2147483648 (cb_FileIdentityLength info)); lia.
Qed.

(** X13.  An identity goes from creation to the engine unchanged: when the
    platform calls FetchData back with the identity bytes and length that a
    CreatePlaceholder submitted for a blob of fewer than 2^31 bytes, the
    engine's entry point receives as length the number of bytes before the
    blob's first zero byte and, under that length, exactly those bytes (the
    whole blob when it has no zero byte). *)
Theorem identity_reaches_engine :
  forall (w w' : W) (parent_path name : option c_string) (B : c_string)
         (file_size mtime_unix is_directory : Z)
         (base : wstring) (info : CF_PLACEHOLDER_CREATE_INFO) (flags : DWORD)
         (cb : CF_CALLBACK_INFO) (params : CF_CALLBACK_PARAMETERS),
    calls h (cfapi_create_placeholder MultiByteToWideChar
               parent_path name B file_size mtime_unix is_directory) w
      = [CfCreatePlaceholders base info flags] ->
    cb_FileIdentity cb
      = firstn (Z.to_nat (FileIdentityLength info)) (FileIdentity info) ->
    cb_FileIdentityLength cb = FileIdentityLength info ->
    Z.of_nat (List.length B) < 2 ^ 31 ->
    exists identity len,
      calls h (FetchDataCallback cb params) w'
        = [goHydrationCallback identity len
             (RequiredFileOffset params) (RequiredLength params)
             (cb_TransferKey cb)] /\
      len = Z.of_nat (strlen B) /\
      firstn (Z.to_nat len) identity = firstn (strlen B) B /\
      (no_nul B -> firstn (Z.to_nat len) identity = B).
Proof.
  intros w w' parent_path name B file_size mtime_unix is_directory
         base info flags cb params Hcalls Hid Hlen HB.
  unfold cfapi_create_placeholder in Hcalls. cbv zeta in Hcalls.
  autorewrite with shim in Hcalls. cbn [calls app] in Hcalls.
  injection Hcalls as _ Hinfo _. subst info.
  cbn [FileIdentityLength FileIdentity] in Hid, Hlen.
  pose proof (strlen_le B) as Hsl.
  assert (Hu : Int.u32 (Z.of_nat (strlen B)) = Z.of_nat (strlen B)).
  { apply u32_id. change (2 ^ 32) with 4294967296.
    change (2 ^ 31) with 2147483648 in HB. lia. }
  rewrite Hu in Hid, Hlen. rewrite Nat2Z.id in Hid.
  unfold FetchDataCallback. cbv zeta.
  do 2 eexists. split; [apply calls_call |].
  rewrite Hlen, s32_id by lia.
  split; [reflexivity |].
  rewrite Nat2Z.id, Hid, firstn_firstn, Nat.min_id.
  split; [reflexivity |].
  intros Hnn. rewrite strlen_no_nul by assumption. apply firstn_all.
Qed.

(** X14.  Utf8ToWide gives the empty string for a null pointer and for an
    empty string, without converting; otherwise it gives the platform's
    conversion without its last code unit, the terminator, so one unit
    shorter, and the empty string when the conversion fails. *)
Theorem Utf8ToWide_strips_terminator :
  forall (utf8 : option c_string),
    Utf8ToWide MultiByteToWideChar utf8
    = match utf8 with
      | None => []
      | Some s =>
        if (strlen s =? 0)%nat then [] else removelast (MultiByteToWideChar s)
      end
    /\ List.length (Utf8ToWide MultiByteToWideChar utf8)
       = match utf8 with
         | None => O
         | Some s =>
           if (strlen s =? 0)%nat then O
           else pred (List.length (MultiByteToWideChar s))
         end.
Proof.
  assert (Hmain : forall utf8,
    Utf8ToWide MultiByteToWideChar utf8
    = match utf8 with
      | None => []
      | Some s =>
        if (strlen s =? 0)%nat then [] else removelast (MultiByteToWideChar s)
      end).
  { intros [s |]; [| reflexivity].
    unfold Utf8ToWide. destruct (strlen s) as [| n]; [reflexivity |].
    cbn [Nat.eqb].
    destruct (MultiByteToWideChar s) as [| c l] eqn:E; [reflexivity |].
    destruct (Z.leb_spec (Z.of_nat (List.length (c :: l))) 0) as [H0 | H0].
    - simpl List.length in H0. lia.
    - rewrite removelast_firstn_len. f_equal. simpl List.length. lia. }
  intros utf8. split; [apply Hmain |].
  rewrite Hmain. destruct utf8 as [s |]; [| reflexivity].
  destruct (strlen s =? 0)%nat; [reflexivity |].
  rewrite removelast_firstn_len. rewrite length_firstn. lia.
Qed.

(** X15.  A null or empty path is not refused: each path-taking function
    still issues its platform call, with the empty wide string as the
    path. *)
Theorem empty_path_is_passed_on :
  forall (w : W) (path other1 other2 : option c_string) (file_identity : c_string)
         (file_size mtime_unix is_directory : Z),
    empty_arg path ->
    (exists reg pol flags,
       calls h (cfapi_register_sync_root MultiByteToWideChar path other1 other2) w
       = [CfRegisterSyncRoot [] reg pol flags]) /\
    (exists table flags,
       calls h (cfapi_connect_sync_root MultiByteToWideChar path) w
       = [CfConnectSyncRoot [] table flags]) /\
    calls h (cfapi_unregister_sync_root MultiByteToWideChar path) w
      = [CfUnregisterSyncRoot []] /\
    (exists info flags,
       calls h (cfapi_create_placeholder MultiByteToWideChar path path
                  file_identity file_size mtime_unix is_directory) w
       = [CfCreatePlaceholders [] info flags] /\ RelativeFileName info = []) /\
    (exists a s d f,
       hd_error (calls h (cfapi_update_placeholder MultiByteToWideChar path
                            file_identity file_size mtime_unix) w)
       = Some (CreateFileW [] a s d f)) /\
    (exists a s d f,
       hd_error (calls h (cfapi_dehydrate_placeholder MultiByteToWideChar path) w)
       = Some (CreateFileW [] a s d f)).
Proof.
  intros w path other1 other2 file_identity file_size mtime_unix is_directory Hempty.
  assert (E : Utf8ToWide MultiByteToWideChar path = []).
  { destruct path as [s |]; [| reflexivity].
    simpl in Hempty. unfold Utf8ToWide. now rewrite Hempty. }
  repeat apply conj.
  - unfold cfapi_register_sync_root. cbv zeta. rewrite E.
    do 3 eexists. shim_run. reflexivity.
  - unfold cfapi_connect_sync_root. cbv zeta. rewrite E.
    do 2 eexists. shim_run. reflexivity.
  - unfold cfapi_unregister_sync_root. cbv zeta. rewrite E.
    shim_run. reflexivity.
  - unfold cfapi_create_placeholder. cbv zeta. rewrite E.
    do 2 eexists. split; [shim_run; reflexivity | reflexivity].
  - unfold cfapi_update_placeholder. cbv zeta. rewrite E.
    do 4 eexists. shim_run. reflexivity.
  - unfold cfapi_dehydrate_placeholder. cbv zeta. rewrite E.
    do 4 eexists. shim_run. reflexivity.
Qed.

End Coverage.

Section Composition.

Variable MultiByteToWideChar : c_string -> list WCHAR.

Variable W : Type.
Variable h : platform W.

(** X17.  On a platform where disconnecting makes a key stale and stale
    keys are refused, after Disconnect of a connection key a Complete on
    that key issues its CfExecute call and returns the failure status the
    platform answered it with, and a Fail on that key issues its one
    CfExecute call, on that key, which the platform refuses. *)
Theorem transfer_after_disconnect_fails :
  forall (stale : W -> CF_CONNECTION_KEY -> Prop),
    rejects_stale_keys h stale ->
    disconnect_invalidates h stale ->
    forall (w : W) (key : CF_CONNECTION_KEY) (transfer_key : CF_TRANSFER_KEY)
           (data : option (list byte)) (offset length hr : Z),
      let w' := snd (run h (cfapi_disconnect_sync_root key) w) in
      calls h (cfapi_disconnect_sync_root key) w = [CfDisconnectSyncRoot key] /\
      (exists opInfo opParams,
         calls h (cfapi_transfer_data key transfer_key data offset length) w'
           = [CfExecute opInfo opParams] /\
         ConnectionKey opInfo = key /\
         fst (run h (cfapi_transfer_data key transfer_key data offset length) w')
           = fst (h (CfExecute opInfo opParams) w') /\
         FAILED (fst (run h (cfapi_transfer_data key transfer_key data
                               offset length) w')) = true) /\
      (exists opInfo opParams,
         calls h (cfapi_transfer_error key transfer_key offset hr) w'
           = [CfExecute opInfo opParams] /\
         ConnectionKey opInfo = key /\
         FAILED (fst (h (CfExecute opInfo opParams) w')) = true).
Proof.
  intros stale Hrej Hdis w key transfer_key data offset length hr w'.
  assert (Hstale : stale w' key).
  { subst w'. unfold cfapi_disconnect_sync_root. shim_run. apply Hdis. }
  split; [| split].
  - unfold cfapi_disconnect_sync_root. shim_run. reflexivity.
  - unfold cfapi_transfer_data. cbv zeta.
    do 2 eexists. split; [shim_run; reflexivity |].
    split; [reflexivity |]. split.
    + shim_run. reflexivity.
    + shim_run. unfold static_cast_long. now apply Hrej.
  - unfold cfapi_transfer_error. cbv zeta.
    do 2 eexists. split; [shim_run; reflexivity |].
    split; [reflexivity |]. now apply Hrej.
Qed.

(** X18.  Every public function makes a single attempt.  Counting the
    calls to COM, the Cloud Files API, the file API and the last-error
    query, and not the string conversions inside Utf8ToWide (a function of
    the model, made before any of the counted calls): whatever the platform
    answers, init, register, connect, disconnect, unregister, create,
    Complete and Fail issue exactly one such call, and update and dehydrate
    issue two when the file cannot be opened and three when it can; no call
    is repeated after a failure. *)
Theorem single_attempt :
  forall (w : W) (p1 p2 p3 : option c_string) (file_identity : c_string)
         (file_size mtime_unix is_directory : Z)
         (key : CF_CONNECTION_KEY) (transfer_key : CF_TRANSFER_KEY)
         (data : option (list byte)) (offset length hr : Z),
    List.length (calls h cfapi_init w) = 1%nat /\
    List.length (calls h (cfapi_register_sync_root MultiByteToWideChar p1 p2 p3) w)
      = 1%nat /\
    List.length (calls h (cfapi_connect_sync_root MultiByteToWideChar p1) w) = 1%nat /\
    calls h (cfapi_disconnect_sync_root key) w = [CfDisconnectSyncRoot key] /\
    List.length (calls h (cfapi_unregister_sync_root MultiByteToWideChar p1) w)
      = 1%nat /\
    List.length (calls h (cfapi_create_placeholder MultiByteToWideChar p1 p2
                            file_identity file_size mtime_unix is_directory) w)
      = 1%nat /\
    List.length (calls h (cfapi_transfer_data key transfer_key data offset length) w)
      = 1%nat /\
    List.length (calls h (cfapi_transfer_error key transfer_key offset hr) w)
      = 1%nat /\
    (let opened := fst (h (CreateFileW (Utf8ToWide MultiByteToWideChar p1)
                             WRITE_DAC FILE_SHARE_READ OPEN_EXISTING
                             FILE_FLAG_BACKUP_SEMANTICS) w) in
     List.length (calls h (cfapi_update_placeholder MultiByteToWideChar p1
                             file_identity file_size mtime_unix) w)
       = (if opened =? INVALID_HANDLE_VALUE then 2%nat else 3%nat) /\
     List.length (calls h (cfapi_dehydrate_placeholder MultiByteToWideChar p1) w)
       = (if opened =? INVALID_HANDLE_VALUE then 2%nat else 3%nat)).
Proof.
  intros.
  repeat apply conj.
  - unfold cfapi_init. shim_run.
    destruct (FAILED _ && negb _); reflexivity.
  - unfold cfapi_register_sync_root. cbv zeta. shim_run. reflexivity.
  - unfold cfapi_connect_sync_root. cbv zeta. shim_run. reflexivity.
  - unfold cfapi_disconnect_sync_root. shim_run. reflexivity.
  - unfold cfapi_unregister_sync_root. cbv zeta. shim_run. reflexivity.
  - unfold cfapi_create_placeholder. cbv zeta. shim_run. reflexivity.
  - unfold cfapi_transfer_data. cbv zeta. shim_run. reflexivity.
  - unfold cfapi_transfer_error. cbv zeta. shim_run. reflexivity.
  - unfold cfapi_update_placeholder. cbv zeta. shim_run.
    destruct (fst (h (CreateFileW _ _ _ _ _) w) =? INVALID_HANDLE_VALUE);
      shim_run; reflexivity.
  - unfold cfapi_dehydrate_placeholder. cbv zeta. shim_run.
    destruct (fst (h (CreateFileW _ _ _ _ _) w) =? INVALID_HANDLE_VALUE);
      shim_run; reflexivity.
Qed.

End Composition.

Lemma refos_disconnect_invalidates :
  disconnect_invalidates RefOS.handle RefOS.stale.
Proof.
  intros key w. unfold RefOS.stale. simpl.
  destruct (existsb (Z.eqb key) (RefOS.live w)) eqn:E; cbn [snd].
  - cbn [RefOS.live RefOS.set_live].
    induction (RefOS.live w) as [| k l IH]; [reflexivity |].
    simpl. destruct (Z.eqb_spec key k) as [-> | Hne]; simpl.
    + destruct (existsb (Z.eqb k) l) eqn:El; [now apply IH |].
      clear IH E. induction l as [| k' l IH]; [reflexivity |].
      simpl in El |- *. apply orb_false_iff in El. destruct El as (E1 & E2).
      rewrite E1. simpl. rewrite E1. simpl. now apply IH.
    + apply Z.eqb_neq in Hne. rewrite Hne. simpl.
      simpl in E. rewrite Hne in E. simpl in E. now apply IH.
  - exact E.
Qed.

(** ** Instances of the further properties *)

(** X3, witness: the Unix epoch and the time 1700000000. *)
Lemma filetime_monotone_witness :
  exact_range 0 /\ exact_range 1700000000 /\ 0 < 1700000000 /\
  reinterpret_LONGLONG (UnixToFileTime 0)
    < reinterpret_LONGLONG (UnixToFileTime 1700000000) /\
  reinterpret_LONGLONG (UnixToFileTime 1700000000)
    - reinterpret_LONGLONG (UnixToFileTime 0) = (1700000000 - 0) * 10000000.
Proof.
  assert (H1 : exact_range 0) by (unfold exact_range; lia).
  assert (H2 : exact_range 1700000000) by (unfold exact_range; lia).
  assert (H3 : 0 < 1700000000) by lia.
  split; [exact H1 |]. split; [exact H2 |]. split; [exact H3 |].
  exact (@filetime_monotone 0 1700000000 H1 H2 H3).
Defined.

(** X4, witness: one second before 1601. *)
Lemma filetime_whole_seconds_witness :
  exact_range (-11644473601) /\
  reinterpret_LONGLONG (UnixToFileTime (-11644473601)) mod 10000000 = 0 /\
  whole_seconds (reinterpret_LONGLONG (UnixToFileTime (-11644473601))) = -11644473601.
Proof.
  assert (H : exact_range (-11644473601)) by (unfold exact_range; lia).
  split; [exact H |].
  exact (@filetime_whole_seconds (-11644473601) H).
Defined.

(** X10, witness: updating "a.txt" on the freshly booted reference
    platform, where no file exists and the last error becomes 2. *)
Lemma open_failure_status_witness :
  fst (RefOS.handle
         (CreateFileW (Utf8ToWide RefOS.ascii_to_wide (Some text_a_txt))
            WRITE_DAC FILE_SHARE_READ OPEN_EXISTING FILE_FLAG_BACKUP_SEMANTICS)
         RefOS.boot) = INVALID_HANDLE_VALUE /\
  fst (run RefOS.handle
         (cfapi_update_placeholder RefOS.ascii_to_wide
            (Some text_a_txt) text_id_1 10 1700000000) RefOS.boot)
  = fst (run RefOS.handle
           (cfapi_dehydrate_placeholder RefOS.ascii_to_wide (Some text_a_txt))
           RefOS.boot) /\
  FAILED (fst (run RefOS.handle
                 (cfapi_update_placeholder RefOS.ascii_to_wide
                    (Some text_a_txt) text_id_1 10 1700000000) RefOS.boot))
  = true.
Proof.
  assert (Hinv : fst (RefOS.handle
                        (CreateFileW (Utf8ToWide RefOS.ascii_to_wide (Some text_a_txt))
                           WRITE_DAC FILE_SHARE_READ OPEN_EXISTING
                           FILE_FLAG_BACKUP_SEMANTICS)
                        RefOS.boot) = INVALID_HANDLE_VALUE) by reflexivity.
  assert (He : 0 <= fst (RefOS.handle GetLastError
                           (snd (RefOS.handle
                                   (CreateFileW
                                      (Utf8ToWide RefOS.ascii_to_wide (Some text_a_txt))
                                      WRITE_DAC FILE_SHARE_READ OPEN_EXISTING
                                      FILE_FLAG_BACKUP_SEMANTICS)
                                   RefOS.boot))) < 2 ^ 32)
    by (vm_compute; split; [discriminate | reflexivity]).
  split; [exact Hinv |].
  destruct (@open_failure_status RefOS.ascii_to_wide _ RefOS.handle RefOS.boot
              (Some text_a_txt) text_id_1 10 1700000000 Hinv He)
    as (Hsame & _ & Hfailed).
  split; [exact Hsame | exact Hfailed].
Defined.

(** X12, witness: a callback for the four-byte identity "id-1". *)
Lemma fetch_data_identity_length_witness :
  0 <= cb_FileIdentityLength callback_a_txt < 2 ^ 32 /\
  exists len,
    calls RefOS.handle (FetchDataCallback callback_a_txt fetch_first_kilobyte)
      world_connected
    = [goHydrationCallback text_id_1 len 0 1024 9] /\
    (len <? 0) = false.
Proof.
  assert (H : 0 <= cb_FileIdentityLength callback_a_txt < 2 ^ 32)
    by (vm_compute; split; [discriminate | reflexivity]).
  split; [exact H |].
  destruct (@fetch_data_identity_length _ RefOS.handle world_connected
              callback_a_txt fetch_first_kilobyte H) as (len & Hcalls & _ & Hneg).
  exists len. split; [exact Hcalls | exact Hneg].
Defined.

(** X13, witness: "a.txt" created with identity "id-1" on the reference
    platform and fetched back. *)
Lemma identity_reaches_engine_witness :
  calls RefOS.handle
    (cfapi_create_placeholder RefOS.ascii_to_wide
       (Some text_sync_root) (Some text_a_txt) text_id_1 1024 1700000000 0)
    RefOS.boot
    = [CfCreatePlaceholders [67; 58; 92; 115; 121; 110; 99] entry_a_txt 0] /\
  cb_FileIdentity callback_a_txt
    = firstn (Z.to_nat (FileIdentityLength entry_a_txt)) (FileIdentity entry_a_txt) /\
  cb_FileIdentityLength callback_a_txt = FileIdentityLength entry_a_txt /\
  Z.of_nat (List.length text_id_1) < 2 ^ 31 /\
  exists identity len,
    calls RefOS.handle (FetchDataCallback callback_a_txt fetch_first_kilobyte)
      world_with_file
    = [goHydrationCallback identity len 0 1024 9] /\
    len = Z.of_nat (strlen text_id_1) /\
    firstn (Z.to_nat len) identity = firstn (strlen text_id_1) text_id_1.
Proof.
  assert (Hcalls : calls RefOS.handle
                     (cfapi_create_placeholder RefOS.ascii_to_wide
                        (Some text_sync_root) (Some text_a_txt) text_id_1
                        1024 1700000000 0) RefOS.boot
                   = [CfCreatePlaceholders [67; 58; 92; 115; 121; 110; 99]
                        entry_a_txt 0]) by reflexivity.
  assert (Hid : cb_FileIdentity callback_a_txt
                = firstn (Z.to_nat (FileIdentityLength entry_a_txt))
                         (FileIdentity entry_a_txt)) by reflexivity.
  assert (Hlen : cb_FileIdentityLength callback_a_txt = FileIdentityLength entry_a_txt)
    by reflexivity.
  assert (HB : Z.of_nat (List.length text_id_1) < 2 ^ 31) by (vm_compute; reflexivity).
  split; [exact Hcalls |]. split; [exact Hid |]. split; [exact Hlen |].
  split; [exact HB |].
  destruct (@identity_reaches_engine RefOS.ascii_to_wide _ RefOS.handle
              RefOS.boot world_with_file (Some text_sync_root) (Some text_a_txt)
              text_id_1 1024 1700000000 0 _ _ _ callback_a_txt fetch_first_kilobyte
              Hcalls Hid Hlen HB)
    as (identity & len & Hc & Hl & Hprefix & _).
  exists identity, len. split; [exact Hc |]. split; [exact Hl | exact Hprefix].
Defined.

(** X15, witness: the null pointer as path. *)
Lemma empty_path_is_passed_on_witness :
  empty_arg None /\
  calls RefOS.handle (cfapi_unregister_sync_root RefOS.ascii_to_wide None) RefOS.boot
    = [CfUnregisterSyncRoot []].
Proof.
  split; [exact I |].
  destruct (@empty_path_is_passed_on RefOS.ascii_to_wide _ RefOS.handle RefOS.boot
              None None None text_id_1 0 0 0 I)
    as (_ & _ & Hunreg & _).
  exact Hunreg.
Defined.

(** X17, witness: key 1, live on the reference platform, disconnected and
    then used for a Complete and a Fail. *)
Lemma transfer_after_disconnect_fails_witness :
  existsb (Z.eqb 1) (RefOS.live world_connected) = true /\
  FAILED (fst (run RefOS.handle (cfapi_transfer_data 1 9 (Some [x41]) 0 1)
                 (snd (run RefOS.handle (cfapi_disconnect_sync_root 1)
                         world_connected)))) = true /\
  exists opInfo opParams,
    calls RefOS.handle (cfapi_transfer_error 1 9 0 (-1))
      (snd (run RefOS.handle (cfapi_disconnect_sync_root 1) world_connected))
      = [CfExecute opInfo opParams] /\
    ConnectionKey opInfo = 1 /\
    FAILED (fst (RefOS.handle (CfExecute opInfo opParams)
                   (snd (run RefOS.handle (cfapi_disconnect_sync_root 1)
                           world_connected)))) = true.
Proof.
  split; [reflexivity |].
  destruct (@transfer_after_disconnect_fails _ RefOS.handle RefOS.stale
              refos_rejects_stale_keys refos_disconnect_invalidates
              world_connected 1 9 (Some [x41]) 0 1 (-1))
    as (_ & (opInfo & opParams & _ & _ & _ & Hfailed) & Hfail).
  split; [exact Hfailed | exact Hfail].
Defined.
